(** * Booking front end: time-slot validation, conflict detection,
      selection state and the fetch wrapper

    A shallow embedding of the parts of the booking/administration front end
    that carry rules: [src/pages/admin/Timeslots.tsx] (schema, [handleSave],
    [checkConflicts]), [src/pages/Booking.tsx] (date/slot selection and the
    availability test) and [src/lib/api.ts] ([fetchAPI]).

    Conventions.
    - A JavaScript string is a [string]: the bytes of its UTF-8 encoding.
      Every pattern the code searches for is ASCII, so prefix, substring and
      character-class tests on bytes agree with those on UTF-16 code units.
    - A JavaScript number is [num = option Z]: [None] is NaN.  The code only
      produces numbers through [parseInt]; the model is exact for values
      below 2^53.
    - React state is an explicit record; an event handler is a function from
      the state of the render it closes over to the state after the handler.
    - The clock, the network and the toast library are the environment: clock
      readings and the outcome of the request are inputs, toasts are outputs. *)

From Stdlib Require Import ZArith List String Ascii Bool Lia DecimalString Btauto.
From Stdlib Require Import Permutation.
Import ListNotations.
Local Open Scope string_scope.
Local Open Scope Z_scope.

(* ------------------------------------------------------------------ *)
(** ** JavaScript built-ins used by the code *)

Module Js.

(** Character code of a byte. *)
Definition code (c : ascii) : Z := Z.of_N (N_of_ascii c).

(** Numbers: [None] is NaN.  Every comparison with NaN is false. *)
Definition num := option Z.

Definition lt (a b : num) : bool :=
  match a, b with Some x, Some y => x <? y | _, _ => false end.
Definition le (a b : num) : bool :=
  match a, b with Some x, Some y => x <=? y | _, _ => false end.
Definition gt (a b : num) : bool := lt b a.
Definition ge (a b : num) : bool := le b a.

(** [s.replace(c, r)] for a one-character string pattern [c]: only the
    first occurrence is replaced. *)
Fixpoint replace_first (c : ascii) (r : string) (s : string) : string :=
  match s with
  | EmptyString => EmptyString
  | String x s' =>
      if Ascii.eqb x c then r ++ s' else String x (replace_first c r s')
  end.

(** [s.split(c)[0]]: the part of [s] before the first [c]. *)
Fixpoint split_head (c : ascii) (s : string) : string :=
  match s with
  | EmptyString => EmptyString
  | String x s' =>
      if Ascii.eqb x c then EmptyString else String x (split_head c s')
  end.

(** [s.startsWith(p)]. *)
Fixpoint startsWith (p s : string) : bool :=
  match p, s with
  | EmptyString, _ => true
  | String a p', String b s' => Ascii.eqb a b && startsWith p' s'
  | String _ _, EmptyString => false
  end.

(** [s.includes(p)]. *)
Fixpoint includes (p s : string) : bool :=
  startsWith p s ||
  match s with
  | EmptyString => false
  | String _ s' => includes p s'
  end.

(** White space skipped by [parseInt]: TAB, LF, VT, FF, CR and SP in one
    byte; U+00A0 in two; U+1680, U+2000 to U+200A, U+2028, U+2029, U+202F,
    U+205F, U+3000 and U+FEFF in three. *)
Definition is_ws (c : ascii) : bool :=
  let n := code c in ((9 <=? n) && (n <=? 13)) || (n =? 32).

Definition is_ws2 (c1 c2 : ascii) : bool :=
  (code c1 =? 194) && (code c2 =? 160).

Definition is_ws3 (c1 c2 c3 : ascii) : bool :=
  let n1 := code c1 in
  let n2 := code c2 in
  let n3 := code c3 in
  ((n1 =? 225) && (n2 =? 154) && (n3 =? 128))
  || ((n1 =? 226) && (n2 =? 128)
      && (((128 <=? n3) && (n3 <=? 138)) || (n3 =? 168) || (n3 =? 169)
          || (n3 =? 175)))
  || ((n1 =? 226) && (n2 =? 129) && (n3 =? 159))
  || ((n1 =? 227) && (n2 =? 128) && (n3 =? 128))
  || ((n1 =? 239) && (n2 =? 187) && (n3 =? 191)).

Fixpoint trim_start (s : string) : string :=
  match s with
  | EmptyString => EmptyString
  | String c1 s1 =>
      if is_ws c1 then trim_start s1
      else
        match s1 with
        | String c2 s2 =>
            if is_ws2 c1 c2 then trim_start s2
            else
              match s2 with
              | String c3 s3 => if is_ws3 c1 c2 c3 then trim_start s3 else s
              | EmptyString => s
              end
        | EmptyString => s
        end
  end.

(** Value of a character as a digit in the given radix. *)
Definition digit_of (radix : Z) (c : ascii) : option Z :=
  let n := code c in
  let v :=
    if (48 <=? n) && (n <=? 57) then Some (n - 48)
    else if (97 <=? n) && (n <=? 122) then Some (n - 87)
    else if (65 <=? n) && (n <=? 90) then Some (n - 55)
    else None in
  match v with
  | Some d => if d <? radix then Some d else None
  | None => None
  end.

(** Value of the longest prefix of digits. *)
Fixpoint digits_value (radix acc : Z) (s : string) : Z :=
  match s with
  | EmptyString => acc
  | String c s' =>
      match digit_of radix c with
      | Some d => digits_value radix (acc * radix + d) s'
      | None => acc
      end
  end.

Definition starts_with_digit (radix : Z) (s : string) : bool :=
  match s with
  | String c _ => match digit_of radix c with Some _ => true | None => false end
  | EmptyString => false
  end.

(** [parseInt(s)] with no radix argument: leading white space, an optional
    sign, an optional [0x]/[0X] prefix, then the longest run of digits;
    NaN when that run is empty. *)
Definition parseInt (s : string) : num :=
  let s1 := trim_start s in
  let '(sign, s2) :=
    match s1 with
    | String c r =>
        if Ascii.eqb c "-" then (-1, r)
        else if Ascii.eqb c "+" then (1, r)
        else (1, s1)
    | EmptyString => (1, s1)
    end in
  let '(radix, s3) :=
    match s2 with
    | String z (String x r) =>
        if Ascii.eqb z "0" && (Ascii.eqb x "x" || Ascii.eqb x "X")
        then (16, r) else (10, s2)
    | _ => (10, s2)
    end in
  if starts_with_digit radix s3
  then Some (sign * digits_value radix 0 s3)
  else None.

(** [Record<string, string>]: an object used as a map from keys to strings,
    in insertion order; assigning to a key that is present replaces its
    value in place. *)
Definition record := list (string * string).

Fixpoint assign (k v : string) (o : record) : record :=
  match o with
  | [] => [(k, v)]
  | (k', v') :: o' =>
      if String.eqb k' k then (k', v) :: o' else (k', v') :: assign k v o'
  end.

(** [{ ...a, ...b }] *)
Definition spread (a b : record) : record :=
  fold_left (fun acc kv => assign (fst kv) (snd kv) acc) b a.

(** [n.toString()] for an integer. *)
Definition toString (n : Z) : string := NilZero.string_of_int (Z.to_int n).

(** JSON values as [response.json()] produces them. *)
#[warnings="-register-all"]
Inductive value :=
| VNull
| VBool (b : bool)
| VNum (n : Z)
| VStr (s : string)
| VArr (l : list value)
| VObj (fields : list (string * value)).

End Js.

(* ------------------------------------------------------------------ *)
(** ** Regular expressions, as far as the schema uses them *)

Module Regex.

Inductive re :=
| Class (p : ascii -> bool)      (* one character of a class *)
| Cat (a b : re)                 (* ab *)
| Alt (a b : re)                 (* a|b, left alternative first *)
| Opt (a : re).                  (* a?, greedy *)

(** Backtracking matcher: [matchk r s k] tries [r] at the start of [s] and
    hands each possible rest to the continuation [k], in the order a
    backtracking engine tries them. *)
Fixpoint matchk (r : re) (s : string) (k : string -> bool) : bool :=
  match r with
  | Class p =>
      match s with
      | String c s' => p c && k s'
      | EmptyString => false
      end
  | Cat a b => matchk a s (fun s' => matchk b s' k)
  | Alt a b => matchk a s k || matchk b s k
  | Opt a => matchk a s k || k s
  end.

Definition at_end (s : string) : bool :=
  match s with EmptyString => true | String _ _ => false end.

(** [/^r$/.test(s)] (no flags). *)
Definition test (r : re) (s : string) : bool := matchk r s at_end.

Definition range (lo hi : ascii) : re :=
  Class (fun c => (Js.code lo <=? Js.code c) && (Js.code c <=? Js.code hi)).
Definition lit (x : ascii) : re := Class (fun c => Ascii.eqb c x).

End Regex.

(* ------------------------------------------------------------------ *)
(** ** The schema library (zod), as far as [timeSlotSchema] uses it

    [parse] collects issues and throws when there is one.  A failed [regex]
    check on a string records an issue without aborting, so a refinement
    attached to the enclosing object still runs on the raw data. *)

Module Zod.

Record issue := Issue { path : list string; message : string }.

(** [z.string().regex(r, msg)] applied to the string at [key]. *)
Definition string_regex (r : Regex.re) (msg : string) (key : string) (v : string)
  : list issue :=
  if Regex.test r v then [] else [Issue [key] msg].

(** [.refine(pred, msg)] on an object: an issue at the object itself. *)
Definition refine {A : Type} (pred : A -> bool) (msg : string) (data : A)
  : list issue :=
  if pred data then [] else [Issue [] msg].

End Zod.

(* ------------------------------------------------------------------ *)
(** ** [src/pages/admin/Timeslots.tsx] *)

Module Timeslots.

Record TimeSlot := mkTimeSlot
  { id : string; start : string; end_ : string; enabled : bool }.

Record SpecialSlot := mkSpecialSlot
  { sid : string; date : string; slots : list TimeSlot }.

(** [Omit<TimeSlot, 'id'>] *)
Record FormData := mkFormData
  { fstart : string; fend : string; fenabled : bool }.

Inductive Tab := regular | special.

(** [/^([0-1]?[0-9]|2[0-3]):[0-5][0-9]$/] *)
Definition timePattern : Regex.re :=
  Regex.Cat
    (Regex.Alt
       (Regex.Cat (Regex.Opt (Regex.range "0" "1")) (Regex.range "0" "9"))
       (Regex.Cat (Regex.lit "2") (Regex.range "0" "3")))
    (Regex.Cat (Regex.lit ":")
       (Regex.Cat (Regex.range "0" "5") (Regex.range "0" "9"))).

(** [parseInt(t.replace(':', ''))] *)
Definition timeNumber (t : string) : Js.num :=
  Js.parseInt (Js.replace_first ":" EmptyString t).

Definition msgStart : string := "无效的开始时间".
Definition msgEnd : string := "无效的结束时间".
Definition msgRange : string := "结束时间必须晚于开始时间".

(** The refinement of [timeSlotSchema]: [end > start]. *)
Definition endAfterStart (data : FormData) : bool :=
  let start := timeNumber (fstart data) in
  let end_ := timeNumber (fend data) in
  Js.gt end_ start.

(** Issues of [timeSlotSchema.parse(data)]; [parse] returns when the list is
    empty and throws a [ZodError] carrying it otherwise. *)
Definition timeSlotSchema (data : FormData) : list Zod.issue :=
  Zod.string_regex timePattern msgStart "start" (fstart data) ++
  Zod.string_regex timePattern msgEnd "end" (fend data) ++
  Zod.refine endAfterStart msgRange data.

(** [Record<string, string>] *)
Definition Errors := Js.record.

(** [curr.path[0]] used as a property key: a missing element is
    [undefined], which as a key is the string ["undefined"]. *)
Definition pathKey (p : list string) : string :=
  match p with
  | k :: _ => k
  | [] => "undefined"
  end.

Record State := mkState
  { activeTab : Tab;
    regularSlots : list TimeSlot;
    specialSlots : list SpecialSlot;
    selectedSlot : option TimeSlot;
    isEditing : bool;
    formData : FormData;
    errors : Errors }.

(** Readings of the clock taken by [handleSave]: the two [Date.now()] calls
    (slot id, group id) and [new Date().toISOString()]. *)
Record Clock := mkClock { now1 : Z; now2 : Z; isoString : string }.

Definition blankForm : FormData := mkFormData EmptyString EmptyString true.

Definition setErrors (e : Errors) (st : State) : State :=
  mkState (activeTab st) (regularSlots st) (specialSlots st) (selectedSlot st)
          (isEditing st) (formData st) e.

Definition setRegularSlots (l : list TimeSlot) (st : State) : State :=
  mkState (activeTab st) l (specialSlots st) (selectedSlot st)
          (isEditing st) (formData st) (errors st).

Definition setSpecialSlots (l : list SpecialSlot) (st : State) : State :=
  mkState (activeTab st) (regularSlots st) l (selectedSlot st)
          (isEditing st) (formData st) (errors st).

Definition setSelectedSlot (s : option TimeSlot) (st : State) : State :=
  mkState (activeTab st) (regularSlots st) (specialSlots st) s
          (isEditing st) (formData st) (errors st).

Definition setIsEditing (b : bool) (st : State) : State :=
  mkState (activeTab st) (regularSlots st) (specialSlots st) (selectedSlot st)
          b (formData st) (errors st).

Definition setFormData (f : FormData) (st : State) : State :=
  mkState (activeTab st) (regularSlots st) (specialSlots st) (selectedSlot st)
          (isEditing st) f (errors st).

(** [validateForm]: the returned boolean and the state with [errors] set. *)
Definition validateForm (st : State) : bool * State :=
  match timeSlotSchema (formData st) with
  | [] => (true, setErrors [] st)
  | errs =>
      let newErrors :=
        fold_left
          (fun acc curr => Js.assign (pathKey (Zod.path curr)) (Zod.message curr) acc)
          errs [] in
      (false, setErrors newErrors st)
  end.

(** [{ ...slot, ...formData }] *)
Definition merge (slot : TimeSlot) (f : FormData) : TimeSlot :=
  mkTimeSlot (id slot) (fstart f) (fend f) (fenabled f).

(** [{ ...formData, id }] *)
Definition withId (f : FormData) (i : string) : TimeSlot :=
  mkTimeSlot i (fstart f) (fend f) (fenabled f).

Definition editSlots (sel : TimeSlot) (f : FormData) (l : list TimeSlot)
  : list TimeSlot :=
  map (fun slot => if String.eqb (id slot) (id sel) then merge slot f else slot) l.

(** [l.map((x, index) => index === 0 ? f(x) : x)] *)
Definition mapFirst {A : Type} (f : A -> A) (l : list A) : list A :=
  match l with
  | [] => []
  | x :: l' => f x :: l'
  end.

Inductive Toast := ToastSuccess (msg : string) | ToastError (msg : string).

(** [handleSave]: the state after the handler and the toasts it shows. *)
Definition handleSave (clock : Clock) (st : State) : State * list Toast :=
  let '(ok, st1) := validateForm st in
  if negb ok then (st1, [])
  else
    let st2 :=
      match isEditing st, selectedSlot st with
      | true, Some sel =>
          match activeTab st with
          | regular =>
              setRegularSlots (editSlots sel (formData st) (regularSlots st)) st1
          | special =>
              setSpecialSlots
                (map (fun sp =>
                        mkSpecialSlot (sid sp) (date sp)
                                      (editSlots sel (formData st) (slots sp)))
                     (specialSlots st))
                st1
          end
      | _, _ =>
          let newSlot := withId (formData st) (Js.toString (now1 clock)) in
          match activeTab st with
          | regular => setRegularSlots (regularSlots st ++ [newSlot]) st1
          | special =>
              if (0 <? Z.of_nat (List.length (specialSlots st)))
              then
                setSpecialSlots
                  (mapFirst
                     (fun sp =>
                        mkSpecialSlot (sid sp) (date sp) (slots sp ++ [newSlot]))
                     (specialSlots st))
                  st1
              else
                setSpecialSlots
                  [ mkSpecialSlot (Js.toString (now2 clock))
                                  (Js.split_head "T" (isoString clock))
                                  [newSlot] ]
                  st1
          end
      end in
    (setFormData blankForm (setIsEditing false (setSelectedSlot None st2)),
     [ToastSuccess "时段已保存"]).

(** The pool [checkConflicts] looks at. *)
Definition slotsToCheck (st : State) : list TimeSlot :=
  match activeTab st with
  | regular => regularSlots st
  | special => flat_map slots (specialSlots st)
  end.

(** The callback given to [some] in [checkConflicts]. *)
Definition conflictsWith (newSlot slot : TimeSlot) : bool :=
  if String.eqb (id slot) (id newSlot) then false
  else
    let newStart := timeNumber (start newSlot) in
    let newEnd := timeNumber (end_ newSlot) in
    let slotStart := timeNumber (start slot) in
    let slotEnd := timeNumber (end_ slot) in
    (Js.ge newStart slotStart && Js.lt newStart slotEnd) ||
    (Js.gt newEnd slotStart && Js.le newEnd slotEnd) ||
    (Js.le newStart slotStart && Js.ge newEnd slotEnd).

Definition checkConflicts (st : State) (newSlot : TimeSlot) : bool :=
  existsb (conflictsWith newSlot) (slotsToCheck st).

(** The render-time call: [checkConflicts({ ...formData, id: selectedSlot?.id || '' })]. *)
Definition candidate (st : State) : TimeSlot :=
  withId (formData st)
         (match selectedSlot st with
          | Some s => id s
          | None => EmptyString
          end).

Definition showsConflictWarning (st : State) : bool :=
  checkConflicts st (candidate st).

(** The mock data the component starts from. *)
Definition mockRegularSlots : list TimeSlot :=
  [ mkTimeSlot "1" "09:00" "12:00" true;
    mkTimeSlot "2" "14:00" "18:00" true ].

Definition mockSpecialSlots : list SpecialSlot :=
  [ mkSpecialSlot "1" "2025-05-01" [ mkTimeSlot "1-1" "10:00" "15:00" true ] ].

Definition initialState : State :=
  mkState regular mockRegularSlots mockSpecialSlots None false blankForm [].

End Timeslots.

(* ------------------------------------------------------------------ *)
(** ** The time encoding of the specification

    The specification describes a time as a zero-padded 24-hour [HH:MM]
    string and its integer encoding as [hours*100+minutes].  These
    definitions follow those words; the theorems below relate them to what
    the code computes with [parseInt] and [replace]. *)

Module TimeSpec.

Definition isDigit (c : ascii) : bool :=
  (48 <=? Js.code c) && (Js.code c <=? 57).

Definition digit (c : ascii) : Z := Js.code c - 48.

(** Decimal value of a string of digits. *)
Definition decimal (s : string) : Z :=
  fold_left (fun acc c => acc * 10 + digit c) (list_ascii_of_string s) 0.

(** The part of [s] after the first [c]. *)
Fixpoint after (c : ascii) (s : string) : string :=
  match s with
  | EmptyString => EmptyString
  | String x s' => if Ascii.eqb x c then s' else after c s'
  end.

Definition hours (s : string) : Z := decimal (Js.split_head ":" s).
Definition minutes (s : string) : Z := decimal (after ":" s).

(** [hours*100+minutes] *)
Definition encoding (s : string) : Z := hours s * 100 + minutes s.

(** Zero-padded 24-hour [HH:MM]. *)
Definition isHHMM (s : string) : bool :=
  match s with
  | String h1 (String h2 (String c (String m1 (String m2 EmptyString)))) =>
      isDigit h1 && isDigit h2 && Ascii.eqb c ":" && isDigit m1 && isDigit m2
      && (digit h1 * 10 + digit h2 <=? 23)
      && (digit m1 * 10 + digit m2 <=? 59)
  | _ => false
  end.

Definition between (lo hi : Z) (c : ascii) : bool :=
  (lo <=? Js.code c) && (Js.code c <=? hi).

(** The strings of the 24-hour pattern
    [([0-1]?[0-9]|2[0-3]):[0-5][0-9]], by shape: the hour has one digit, or
    two digits and is at most 23; the minutes have two digits and are at
    most 59. *)
Definition timeShape (s : string) : bool :=
  match s with
  | String h (String c (String m1 (String m2 EmptyString))) =>
      between 48 57 h && Ascii.eqb c ":" && between 48 53 m1 && between 48 57 m2
  | String h1 (String h2 (String c (String m1 (String m2 EmptyString)))) =>
      ((between 48 49 h1 && between 48 57 h2)
       || (Ascii.eqb h1 "2" && between 48 51 h2))
      && Ascii.eqb c ":" && between 48 53 m1 && between 48 57 m2
  | _ => false
  end.

End TimeSpec.

(* ------------------------------------------------------------------ *)
(** ** Conflicts in the words of the specification *)

Module ConflictSpec.

(** A slot whose fields are zero-padded [HH:MM] strings with [end > start]
    under the integer encoding. *)
Definition wellFormed (s : Timeslots.TimeSlot) : bool :=
  TimeSpec.isHHMM (Timeslots.start s) && TimeSpec.isHHMM (Timeslots.end_ s)
  && (TimeSpec.encoding (Timeslots.start s) <? TimeSpec.encoding (Timeslots.end_ s)).

(** Half-open overlap of the encoded intervals: [s1 < e2 AND s2 < e1]. *)
Definition overlaps (a b : Timeslots.TimeSlot) : Prop :=
  TimeSpec.encoding (Timeslots.start a) < TimeSpec.encoding (Timeslots.end_ b)
  /\ TimeSpec.encoding (Timeslots.start b) < TimeSpec.encoding (Timeslots.end_ a).

(** A component state whose pool, on the given tab, is the given list. *)
Definition poolState (tab : Timeslots.Tab) (pool : list Timeslots.TimeSlot)
  : Timeslots.State :=
  match tab with
  | Timeslots.regular =>
      Timeslots.mkState tab pool [] None false Timeslots.blankForm []
  | Timeslots.special =>
      Timeslots.mkState tab []
        [Timeslots.mkSpecialSlot "1" "2025-05-01" pool]
        None false Timeslots.blankForm []
  end.

End ConflictSpec.

(* ------------------------------------------------------------------ *)
(** ** [src/pages/Booking.tsx] *)

Module Booking.

Record Slot := mkSlot { start : string; end_ : string; available : bool }.

Record DaySlots := mkDaySlots { date : string; slots : list Slot }.

Record Form := mkForm
  { name : string; email : string; phone : string; type : string }.

Record State := mkState
  { formData : Form;
    errors : Js.record;
    selectedDate : option string;
    selectedSlot : option string;
    availableSlots : list DaySlots;
    loadingSlots : bool }.

(** [handleDateSelect]: [setSelectedDate(date); setSelectedSlot(null)] *)
Definition handleDateSelect (d : string) (st : State) : State :=
  mkState (formData st) (errors st) (Some d) None
          (availableSlots st) (loadingSlots st).

(** [handleSlotSelect]: [setSelectedSlot(slot)] *)
Definition handleSlotSelect (slot : string) (st : State) : State :=
  mkState (formData st) (errors st) (selectedDate st) (Some slot)
          (availableSlots st) (loadingSlots st).

(** The key a slot button passes to [handleSlotSelect]:
    [`${slot.start}-${slot.end}`] *)
Definition slotKey (slot : Slot) : string :=
  start slot ++ "-" ++ end_ slot.

(** [const hasAvailable = daySlot.slots.some(s => s.available)] *)
Definition hasAvailable (daySlot : DaySlots) : bool :=
  existsb available (slots daySlot).

(** The day button is rendered with [disabled={!hasAvailable}]. *)
Definition dayDisabled (daySlot : DaySlots) : bool := negb (hasAvailable daySlot).

(** The states of the selection machine in the words of the specification,
    and the state a component state stands for.  A slot without a date is
    not one of them. *)
Inductive Selection :=
| NoneSelected
| DateSelected (d : string)
| DateAndSlotSelected (d : string) (s : string).

Definition selection (st : State) : option Selection :=
  match selectedDate st, selectedSlot st with
  | None, None => Some NoneSelected
  | Some d, None => Some (DateSelected d)
  | Some d, Some s => Some (DateAndSlotSelected d s)
  | None, Some _ => None
  end.

End Booking.

(* ------------------------------------------------------------------ *)
(** ** [src/lib/api.ts] *)

Module Api.

(** What a [try] block can catch.  [instanceof] tells the classes apart;
    [TypeError], [DOMException] and every other error class are instances of
    [Error]; a thrown value that is not an [Error] is [NotAnError]. *)
Inductive ErrorClass := TypeError | DOMException | OtherError.

Inductive thrown :=
| Err (cls : ErrorClass) (name : string) (message : string)
| NotAnError.

(** [new Error(msg)] *)
Definition newError (msg : string) : thrown := Err OtherError "Error" msg.

Record RequestInit := mkRequestInit
  { method : option string; headers : option Js.record; body : option string }.

(** The second argument of [fetch]. *)
Record Request := mkRequest
  { url : string;
    reqMethod : option string;
    reqHeaders : Js.record;
    reqBody : option string;
    credentials : string;
    timeoutMs : Z          (* [signal: AbortSignal.timeout(ms)] *) }.

(** What the code reads of a response.  Reading the body can fail. *)
Record Response := mkResponse
  { contentType : option string;      (* [headers.get('content-type')] *)
    ok : bool;
    status : Z;
    statusText : string;
    text : thrown + string;           (* [await response.text()] *)
    json : thrown + Js.value          (* [await response.json()] *) }.

(** The environment of one call: the outcome of [fetch] and the reading of
    [new Date().toISOString()] used for the fallback. *)
Record Env := mkEnv { network : thrown + Response; isoNow : string }.

Definition API_BASE_URL : string := "/api".

Definition request (endpoint : string) (options : option RequestInit) : Request :=
  mkRequest
    (API_BASE_URL ++ endpoint)
    (match options with Some o => method o | None => None end)
    (Js.spread [("Content-Type", "application/json")]
       (match options with
        | Some o => match headers o with Some h => h | None => [] end
        | None => []
        end))
    (match options with Some o => body o | None => None end)
    "include"
    8000.

Definition htmlError : thrown := newError "服务器返回了HTML页面而不是JSON数据".

(** [`无效的响应类型: ${contentType}`] *)
Definition invalidTypeError (contentType : option string) : thrown :=
  newError ("无效的响应类型: " ++
            match contentType with Some ct => ct | None => "null" end).

(** [`请求失败: ${response.status} ${response.statusText}`] *)
Definition statusError (resp : Response) : thrown :=
  newError ("请求失败: " ++ Js.toString (status resp) ++ " " ++ statusText resp).

(** [!contentType || !contentType.includes('application/json')] *)
Definition notJson (resp : Response) : bool :=
  match contentType resp with
  | None => true
  | Some ct =>
      match ct with
      | EmptyString => true
      | String _ _ => negb (Js.includes "application/json" ct)
      end
  end.

(** The [try] block: the value it returns or what it throws. *)
Definition tryBlock (net : thrown + Response) : thrown + Js.value :=
  match net with
  | inl e => inl e
  | inr resp =>
      if notJson resp then
        match text resp with
        | inl e => inl e
        | inr t =>
            if Js.startsWith "<!DOCTYPE html>" t then inl htmlError
            else inl (invalidTypeError (contentType resp))
        end
      else if negb (ok resp) then
        (* the inner [try] ends in a throw on every path, and its [catch]
           replaces whatever was thrown by the status error *)
        match json resp with
        | inl _ => inl (statusError resp)
        | inr _ => inl (statusError resp)
        end
      else
        match json resp with
        | inl e => inl e
        | inr data => inr data
        end
  end.

(** The message of the [catch] block. *)
Definition errorMessage (error : thrown) : string :=
  match error with
  | Err cls name message =>
      match cls with
      | TypeError =>
          if Js.includes "Failed to fetch" message
          then "无法连接到API服务器，请检查网络连接或服务器状态"
          else "API请求错误: " ++ message
      | DOMException =>
          if String.eqb name "AbortError"
          then "请求超时，请稍后再试"
          else "API请求错误: " ++ message
      | OtherError => "API请求错误: " ++ message
      end
  | NotAnError => "网络请求失败"
  end.

(** The data returned for ['/timeslots'] when the request failed. *)
Definition fallback (iso : string) : Js.value :=
  Js.VArr
    [ Js.VObj
        [ ("date", Js.VStr (Js.split_head "T" iso));
          ("slots",
           Js.VArr
             [ Js.VObj [ ("start", Js.VStr "09:00"); ("end", Js.VStr "12:00");
                         ("available", Js.VBool true) ];
               Js.VObj [ ("start", Js.VStr "14:00"); ("end", Js.VStr "18:00");
                         ("available", Js.VBool true) ] ]) ] ].

(** One call of [fetchAPI]: the request it sends, the error toasts it shows
    and how the promise settles ([inr]: fulfilled, [inl]: rejected). *)
Record Outcome := mkOutcome
  { sent : Request; toasts : list string; settled : thrown + Js.value }.

Definition fetchAPI (endpoint : string) (options : option RequestInit)
  (env : Env) : Outcome :=
  let req := request endpoint options in
  match tryBlock (network env) with
  | inr data => mkOutcome req [] (inr data)
  | inl error =>
      let errorMessage := errorMessage error in
      if String.eqb endpoint "/timeslots"
      then mkOutcome req [errorMessage] (inr (fallback (isoNow env)))
      else mkOutcome req [errorMessage] (inl error)
  end.

Definition getAvailableTimeslots (env : Env) : Outcome :=
  fetchAPI "/timeslots" None env.

End Api.

(* ------------------------------------------------------------------ *)
(** ** Concrete inputs used in the examples below *)

Module Examples.

Definition slotA : Timeslots.TimeSlot := Timeslots.mkTimeSlot "7" "10:00" "11:30" true.

Definition poolA : list Timeslots.TimeSlot :=
  [ Timeslots.mkTimeSlot "7" "10:30" "11:00" true;
    Timeslots.mkTimeSlot "1" "09:00" "12:00" true;
    Timeslots.mkTimeSlot "2" "14:00" "18:00" false ].

Definition morning : Timeslots.TimeSlot := Timeslots.mkTimeSlot "a" "09:00" "12:00" true.
Definition noon : Timeslots.TimeSlot := Timeslots.mkTimeSlot "b" "12:00" "14:00" true.
Definition late : Timeslots.TimeSlot := Timeslots.mkTimeSlot "b" "11:00" "13:00" true.

(** The slot list as it starts, with 10:00-11:00 typed into the form: it
    overlaps 09:00-12:00. *)
Definition overlappingForm : Timeslots.State :=
  Timeslots.setFormData (Timeslots.mkFormData "10:00" "11:00" true)
                        Timeslots.initialState.

(** The same form on the special tab. *)
Definition specialForm : Timeslots.State :=
  Timeslots.mkState Timeslots.special Timeslots.mockRegularSlots
    Timeslots.mockSpecialSlots None false
    (Timeslots.mkFormData "10:00" "11:00" true) [].

Definition clock0 : Timeslots.Clock :=
  Timeslots.mkClock 1747735872000 1747735872001 "2025-05-20T10:11:12.000Z".

Definition fullDay : Booking.DaySlots :=
  Booking.mkDaySlots "2025-05-20" [Booking.mkSlot "09:00" "12:00" false].

Definition openDay : Booking.DaySlots :=
  Booking.mkDaySlots "2025-05-20"
    [Booking.mkSlot "09:00" "12:00" false; Booking.mkSlot "14:00" "18:00" true].

(** A request that times out: [AbortSignal.timeout] aborts the fetch with a
    [DOMException] named [TimeoutError]. *)
Definition timedOut : Api.Env :=
  Api.mkEnv (inl (Api.Err Api.DOMException "TimeoutError" "signal timed out"))
            "2025-05-20T10:11:12.000Z".

(** A server that answers with an HTML page. *)
Definition htmlPage : Api.Response :=
  Api.mkResponse (Some "text/html; charset=utf-8") true 200 "OK"
    (inr "<!DOCTYPE html><html><body>It works</body></html>")
    (inl (Api.Err Api.OtherError "SyntaxError" "Unexpected token <")).

Definition htmlAnswer : Api.Env :=
  Api.mkEnv (inr htmlPage) "2025-05-20T10:11:12.000Z".

End Examples.


(* ------------------------------------------------------------------ *)
(** ** Reading a record *)

Module JsRecord.

(** [o[k]]: the value stored at a key, [None] for [undefined]. *)
Fixpoint get (k : string) (o : Js.record) : option string :=
  match o with
  | [] => None
  | (k', v) :: o' => if String.eqb k' k then Some v else get k o'
  end.

(** Truthiness of [o[k]]: present and not the empty string. *)
Definition truthy (v : option string) : bool :=
  match v with
  | Some (String _ _) => true
  | _ => false
  end.

End JsRecord.

(* ------------------------------------------------------------------ *)
(** ** [src/pages/admin/Timeslots.tsx]: the other handlers *)

Module TimeslotsUi.

(** [items.splice(src, 1)]: the removed element ([None] when [src] is past
    the end, where nothing is removed) and the array left. *)
Definition spliceOut {A : Type} (src : nat) (items : list A) : option A * list A :=
  (nth_error items src, (firstn src items ++ skipn (S src) items)%list).

(** [items.splice(dst, 0, x)]: a [dst] past the end inserts at the end. *)
Definition spliceIn {A : Type} (dst : nat) (x : A) (items : list A) : list A :=
  firstn dst items ++ x :: skipn dst items.

(** The array after
    [const [reorderedItem] = items.splice(src, 1);
     items.splice(dst, 0, reorderedItem)].
    An element [None] is [undefined]: destructuring an empty array gives
    [undefined], and that is what gets inserted. *)
Definition reorder {A : Type} (src dst : nat) (items : list A) : list (option A) :=
  let '(reorderedItem, rest) := spliceOut src items in
  spliceIn dst reorderedItem (map Some rest).

(** The array as a typed list, when it holds no [undefined]. *)
Fixpoint allDefined {A : Type} (l : list (option A)) : option (list A) :=
  match l with
  | [] => Some []
  | None :: _ => None
  | Some x :: l' =>
      match allDefined l' with
      | Some r => Some (x :: r)
      | None => None
      end
  end.

(** What the handler reads of the drop result: [result.source.index] and
    [result.destination?.index] (indices are non-negative integers). *)
Record DropResult := mkDropResult { source : nat; destination : option nat }.

(** [handleDragEnd].  [None]: the array set as state holds [undefined] and
    is no list of slots any more. *)
Definition handleDragEnd (result : DropResult) (st : Timeslots.State)
  : option Timeslots.State :=
  match destination result with
  | None => Some st
  | Some dst =>
      match Timeslots.activeTab st with
      | Timeslots.regular =>
          match allDefined (reorder (source result) dst (Timeslots.regularSlots st)) with
          | Some items => Some (Timeslots.setRegularSlots items st)
          | None => None
          end
      | Timeslots.special =>
          match allDefined (reorder (source result) dst (Timeslots.specialSlots st)) with
          | Some items => Some (Timeslots.setSpecialSlots items st)
          | None => None
          end
      end
  end.

Definition otherId (i : string) (slot : Timeslots.TimeSlot) : bool :=
  negb (String.eqb (Timeslots.id slot) i).

(** The [onClick] of the confirmation that [handleDelete(id)] shows.  The
    callback closes over the render in which the delete button was clicked
    ([captured]); it runs on the state current at the confirmation. *)
Definition deleteOnClick (i : string) (captured current : Timeslots.State)
  : Timeslots.State * list Timeslots.Toast :=
  (match Timeslots.activeTab captured with
   | Timeslots.regular =>
       Timeslots.setRegularSlots
         (filter (otherId i) (Timeslots.regularSlots captured)) current
   | Timeslots.special =>
       Timeslots.setSpecialSlots
         (filter (fun sp => 0 <? Z.of_nat (List.length (Timeslots.slots sp)))
            (map (fun sp =>
                    Timeslots.mkSpecialSlot (Timeslots.sid sp) (Timeslots.date sp)
                      (filter (otherId i) (Timeslots.slots sp)))
                 (Timeslots.specialSlots captured)))
         current
   end,
   [Timeslots.ToastSuccess "时段已删除"]).

(** Delete confirmed in the render it was asked in. *)
Definition deleteNow (i : string) (st : Timeslots.State) : Timeslots.State :=
  fst (deleteOnClick i st st).

Definition setActiveTab (tab : Timeslots.Tab) (st : Timeslots.State)
  : Timeslots.State :=
  Timeslots.mkState tab (Timeslots.regularSlots st) (Timeslots.specialSlots st)
    (Timeslots.selectedSlot st) (Timeslots.isEditing st) (Timeslots.formData st)
    (Timeslots.errors st).

(** Click on a slot of the list: select it for editing. *)
Definition clickSlot (slot : Timeslots.TimeSlot) (st : Timeslots.State)
  : Timeslots.State :=
  Timeslots.setIsEditing true
    (Timeslots.setFormData
       (Timeslots.mkFormData (Timeslots.start slot) (Timeslots.end_ slot)
                             (Timeslots.enabled slot))
       (Timeslots.setSelectedSlot (Some slot) st)).

(** The add button and the cancel button. *)
Definition clickAdd (st : Timeslots.State) : Timeslots.State :=
  Timeslots.setFormData Timeslots.blankForm
    (Timeslots.setIsEditing false (Timeslots.setSelectedSlot None st)).

(** The [onChange] handlers of the three inputs. *)
Definition changeStart (v : string) (st : Timeslots.State) : Timeslots.State :=
  Timeslots.setFormData
    (Timeslots.mkFormData v (Timeslots.fend (Timeslots.formData st))
                          (Timeslots.fenabled (Timeslots.formData st))) st.

Definition changeEnd (v : string) (st : Timeslots.State) : Timeslots.State :=
  Timeslots.setFormData
    (Timeslots.mkFormData (Timeslots.fstart (Timeslots.formData st)) v
                          (Timeslots.fenabled (Timeslots.formData st))) st.

Definition changeEnabled (b : bool) (st : Timeslots.State) : Timeslots.State :=
  Timeslots.setFormData
    (Timeslots.mkFormData (Timeslots.fstart (Timeslots.formData st))
                          (Timeslots.fend (Timeslots.formData st)) b) st.

(** What the user can do on the page. *)
Inductive Event :=
| Save (clock : Timeslots.Clock)
| Delete (i : string)              (* delete button, confirmed at once *)
| Drag (result : DropResult)
| ClickSlot (slot : Timeslots.TimeSlot)
| ClickAdd
| SwitchTab (tab : Timeslots.Tab)
| TypeStart (v : string)
| TypeEnd (v : string)
| ToggleEnabled (b : bool).

Definition step (ev : Event) (st : Timeslots.State) : option Timeslots.State :=
  match ev with
  | Save clock => Some (fst (Timeslots.handleSave clock st))
  | Delete i => Some (deleteNow i st)
  | Drag result => handleDragEnd result st
  | ClickSlot slot => Some (clickSlot slot st)
  | ClickAdd => Some (clickAdd st)
  | SwitchTab tab => Some (setActiveTab tab st)
  | TypeStart v => Some (changeStart v st)
  | TypeEnd v => Some (changeEnd v st)
  | ToggleEnabled b => Some (changeEnabled b st)
  end.

Fixpoint run (evs : list Event) (st : Timeslots.State) : option Timeslots.State :=
  match evs with
  | [] => Some st
  | ev :: evs' =>
      match step ev st with
      | Some st' => run evs' st'
      | None => None
      end
  end.

(** A stored slot whose times pass the schema. *)
Definition storedValid (slot : Timeslots.TimeSlot) : bool :=
  match Timeslots.timeSlotSchema
          (Timeslots.mkFormData (Timeslots.start slot) (Timeslots.end_ slot)
                                (Timeslots.enabled slot)) with
  | [] => true
  | _ :: _ => false
  end.

Definition allValid (st : Timeslots.State) : bool :=
  forallb storedValid (Timeslots.regularSlots st)
  && forallb (fun sp => forallb storedValid (Timeslots.slots sp))
             (Timeslots.specialSlots st).

(** The same, as a property of the two lists. *)
Definition listsValid (regs : list Timeslots.TimeSlot)
  (specs : list Timeslots.SpecialSlot) : Prop :=
  (forall s, In s regs -> storedValid s = true)
  /\ (forall sp s, In sp specs -> In s (Timeslots.slots sp) ->
                   storedValid s = true).

End TimeslotsUi.

(* ------------------------------------------------------------------ *)
(** ** [src/pages/Booking.tsx]: the form, the buttons and the loading effect *)

Module BookingUi.

(** [s.length]: the number of UTF-16 code units of the string whose UTF-8
    bytes are [s].  Every byte that is not a continuation byte starts a
    character; a character of four bytes takes two code units. *)
Definition utf16Units (c : ascii) : Z :=
  let n := Js.code c in
  (if (128 <=? n) && (n <? 192) then 0 else 1) + (if 240 <=? n then 1 else 0).

Fixpoint utf16Length (s : string) : Z :=
  match s with
  | EmptyString => 0
  | String c s' => utf16Units c + utf16Length s'
  end.

(** [\d] *)
Definition digit : Regex.re := Regex.range "0" "9".

(** [/^1[3-9]\d{9}$/] *)
Definition phonePattern : Regex.re :=
  Regex.Cat (Regex.lit "1")
    (Regex.Cat (Regex.range "3" "9")
       (Regex.Cat digit (Regex.Cat digit (Regex.Cat digit (Regex.Cat digit
          (Regex.Cat digit (Regex.Cat digit (Regex.Cat digit
             (Regex.Cat digit digit))))))))).

(** [z.string().min(n, msg)] applied to the string at [key]. *)
Definition string_min (n : Z) (msg key v : string) : list Zod.issue :=
  if utf16Length v <? n then [Zod.Issue [key] msg] else [].

Inductive Field := FName | FEmail | FPhone | FType.

(** The [name] attribute of the four inputs. *)
Definition fieldKey (f : Field) : string :=
  match f with
  | FName => "name"
  | FEmail => "email"
  | FPhone => "phone"
  | FType => "type"
  end.

Definition msgName : string := "姓名至少2个字符".
Definition msgEmail : string := "请输入有效的邮箱地址".
Definition msgPhone : string := "请输入有效的手机号".
Definition msgType : string := "请选择拍摄类型".
Definition msgChooseTime : string := "请选择预约时间".

(** What [handleSubmit] does besides the state: the toasts, and the route
    it navigates to after its 1.5 s timer. *)
Record Submitted := mkSubmitted
  { after : Booking.State;
    toasts : list Timeslots.Toast;
    navigatesTo : option string }.

Section Form.

(** The check behind [z.string().email(msg)], which the schema library
    owns. *)
Variable isEmail : string -> bool.

(** Issues of [formSchema.parse(formData)]. *)
Definition formSchema (f : Booking.Form) : list Zod.issue :=
  string_min 2 msgName "name" (Booking.name f) ++
  (if isEmail (Booking.email f) then [] else [Zod.Issue ["email"] msgEmail]) ++
  Zod.string_regex phonePattern msgPhone "phone" (Booking.phone f) ++
  string_min 1 msgType "type" (Booking.type f).

(** [!selectedDate || !selectedSlot] *)
Definition noTime (st : Booking.State) : bool :=
  negb (JsRecord.truthy (Booking.selectedDate st))
  || negb (JsRecord.truthy (Booking.selectedSlot st)).

(** [validateForm]: the returned boolean, the state and the toasts. *)
Definition validateForm (st : Booking.State)
  : bool * Booking.State * list Timeslots.Toast :=
  match formSchema (Booking.formData st) with
  | [] =>
      if noTime st then (false, st, [Timeslots.ToastError msgChooseTime])
      else (true, st, [])
  | errs =>
      let newErrors :=
        fold_left
          (fun acc curr =>
             Js.assign (Timeslots.pathKey (Zod.path curr)) (Zod.message curr) acc)
          errs [] in
      (false,
       Booking.mkState (Booking.formData st) newErrors (Booking.selectedDate st)
         (Booking.selectedSlot st) (Booking.availableSlots st)
         (Booking.loadingSlots st),
       [])
  end.

(** [handleSubmit] *)
Definition handleSubmit (st : Booking.State) : Submitted :=
  let '(ok, st1, shown) := validateForm st in
  if negb ok then mkSubmitted st1 shown None
  else mkSubmitted st1 (shown ++ [Timeslots.ToastSuccess "预约成功!"])
                   (Some "/my-appointments").

End Form.

Definition setField (f : Field) (v : string) (form : Booking.Form) : Booking.Form :=
  match f with
  | FName => Booking.mkForm v (Booking.email form) (Booking.phone form) (Booking.type form)
  | FEmail => Booking.mkForm (Booking.name form) v (Booking.phone form) (Booking.type form)
  | FPhone => Booking.mkForm (Booking.name form) (Booking.email form) v (Booking.type form)
  | FType => Booking.mkForm (Booking.name form) (Booking.email form) (Booking.phone form) v
  end.

(** [handleInputChange] for the input named [fieldKey f]. *)
Definition handleInputChange (f : Field) (v : string) (st : Booking.State)
  : Booking.State :=
  Booking.mkState
    (setField f v (Booking.formData st))
    (if JsRecord.truthy (JsRecord.get (fieldKey f) (Booking.errors st))
     then Js.assign (fieldKey f) EmptyString (Booking.errors st)
     else Booking.errors st)
    (Booking.selectedDate st) (Booking.selectedSlot st)
    (Booking.availableSlots st) (Booking.loadingSlots st).

(** [availableSlots.find(d => d.date === selectedDate)] *)
Definition dayOf (d : string) (days : list Booking.DaySlots)
  : option Booking.DaySlots :=
  find (fun day => String.eqb (Booking.date day) d) days.

(** What the user can do: click the [i]-th day button or the [j]-th slot
    button, type into one of the four inputs, press the submit button. *)
Inductive Action :=
| ClickDay (i : nat)
| ClickSlot (j : nat)
| Input (f : Field) (v : string)
| Submit.

(** A day button is disabled when the day has nothing available.  The slot
    buttons exist only while [selectedDate] is truthy; they are those of the
    first day with that date, each disabled when its slot is not
    available.  A click on a disabled or absent button does nothing. *)
Definition act (isEmail : string -> bool) (a : Action) (st : Booking.State)
  : Booking.State :=
  match a with
  | ClickDay i =>
      match nth_error (Booking.availableSlots st) i with
      | Some daySlot =>
          if Booking.dayDisabled daySlot then st
          else Booking.handleDateSelect (Booking.date daySlot) st
      | None => st
      end
  | ClickSlot j =>
      if JsRecord.truthy (Booking.selectedDate st) then
        match Booking.selectedDate st with
        | Some d =>
            match dayOf d (Booking.availableSlots st) with
            | Some daySlot =>
                match nth_error (Booking.slots daySlot) j with
                | Some slot =>
                    if Booking.available slot
                    then Booking.handleSlotSelect (Booking.slotKey slot) st
                    else st
                | None => st
                end
            | None => st
            end
        | None => st
        end
      else st
  | Input f v => handleInputChange f v st
  | Submit => after (handleSubmit isEmail st)
  end.

Definition run (isEmail : string -> bool) (actions : list Action)
  (st : Booking.State) : Booking.State :=
  fold_left (fun s a => act isEmail a s) actions st.

(** The phone pattern by shape: eleven characters, a 1, a digit from 3 to
    9, nine digits. *)
Definition phoneCheck (s : string) : bool :=
  match s with
  | String a (String b rest) =>
      Ascii.eqb a "1" && TimeSpec.between 51 57 b
      && Nat.eqb (String.length rest) 9
      && forallb (TimeSpec.between 48 57) (list_ascii_of_string rest)
  | _ => false
  end.

(** The page as it is once the slots are loaded and nothing is chosen. *)
Definition loaded (days : list Booking.DaySlots) : Booking.State :=
  Booking.mkState (Booking.mkForm EmptyString EmptyString EmptyString EmptyString)
                  [] None None days false.

(** The selected slot is an available slot of the first day carrying the
    selected date, and that date is the date of a day with something
    available. *)
Definition selectionSound (st : Booking.State) : Prop :=
  (forall d, Booking.selectedDate st = Some d ->
     exists daySlot, In daySlot (Booking.availableSlots st)
                     /\ Booking.date daySlot = d
                     /\ Booking.hasAvailable daySlot = true)
  /\ (forall k, Booking.selectedSlot st = Some k ->
       exists d daySlot slot,
         Booking.selectedDate st = Some d
         /\ dayOf d (Booking.availableSlots st) = Some daySlot
         /\ In slot (Booking.slots daySlot)
         /\ Booking.available slot = true
         /\ Booking.slotKey slot = k).

(** What the loading effect leaves: the value given to [setAvailableSlots],
    the error toasts shown (those of [fetchAPI], then the page's own) and
    the loading flag. *)
Record Loaded := mkLoaded
  { stored : Js.value; shown : list string; stillLoading : bool }.

(** [fetchSlots]; [iso] is the clock reading of the page's own default. *)
Definition fetchSlots (env : Api.Env) (iso : string) : Loaded :=
  let out := Api.getAvailableTimeslots env in
  match Api.settled out with
  | inr data => mkLoaded data (Api.toasts out) false
  | inl _ =>
      mkLoaded (Api.fallback iso) (Api.toasts out ++ ["获取可预约时段失败"]) false
  end.

(** Property access on a parsed object. *)
Fixpoint field (k : string) (fields : list (string * Js.value)) : option Js.value :=
  match fields with
  | [] => None
  | (k', v) :: rest => if String.eqb k' k then Some v else field k rest
  end.

Fixpoint allSome {A : Type} (l : list (option A)) : option (list A) :=
  match l with
  | [] => Some []
  | None :: _ => None
  | Some x :: l' =>
      match allSome l' with
      | Some r => Some (x :: r)
      | None => None
      end
  end.

(** A JSON value read at the type the page declares for a slot. *)
Definition asSlot (v : Js.value) : option Booking.Slot :=
  match v with
  | Js.VObj fields =>
      match field "start" fields, field "end" fields, field "available" fields with
      | Some (Js.VStr s), Some (Js.VStr e), Some (Js.VBool a) =>
          Some (Booking.mkSlot s e a)
      | _, _, _ => None
      end
  | _ => None
  end.

(** A JSON value read at the type the page declares for [availableSlots]. *)
Definition asDay (v : Js.value) : option Booking.DaySlots :=
  match v with
  | Js.VObj fields =>
      match field "date" fields, field "slots" fields with
      | Some (Js.VStr d), Some (Js.VArr slots) =>
          match allSome (map asSlot slots) with
          | Some l => Some (Booking.mkDaySlots d l)
          | None => None
          end
      | _, _ => None
      end
  | _ => None
  end.

Definition asDays (v : Js.value) : option (list Booking.DaySlots) :=
  match v with
  | Js.VArr days => allSome (map asDay days)
  | _ => None
  end.

End BookingUi.

(* ------------------------------------------------------------------ *)
(** ** [src/lib/api.ts]: the exported calls *)

Module ApiCalls.

Definition getUserAppointments := Api.fetchAPI "/appointments" None.
Definition getAllAppointments := Api.fetchAPI "/admin/appointments" None.
Definition getNotificationRules := Api.fetchAPI "/notifications/rules" None.
Definition getNotificationHistory := Api.fetchAPI "/notifications/history" None.
Definition getSystemConfig := Api.fetchAPI "/settings" None.
Definition getRegularTimeslots := Api.fetchAPI "/timeslots/regular" None.
Definition getSpecialTimeslots := Api.fetchAPI "/timeslots/special" None.

(** [updateTimeslot(id, data)]; [body] is [JSON.stringify(data)]. *)
Definition updateTimeslot (id : string) (body : option string) :=
  Api.fetchAPI ("/timeslots/" ++ id)
    (Some (Api.mkRequestInit (Some "PUT") None body)).

Definition deleteTimeslot (id : string) :=
  Api.fetchAPI ("/timeslots/" ++ id)
    (Some (Api.mkRequestInit (Some "DELETE") None None)).

(** The calls other than [getAvailableTimeslots], by name. *)
Inductive Call :=
| UserAppointments | AllAppointments | NotificationRules | NotificationHistory
| SystemConfig | RegularTimeslots | SpecialTimeslots
| UpdateTimeslot (id : string) (body : option string)
| DeleteTimeslot (id : string).

Definition perform (c : Call) : Api.Env -> Api.Outcome :=
  match c with
  | UserAppointments => getUserAppointments
  | AllAppointments => getAllAppointments
  | NotificationRules => getNotificationRules
  | NotificationHistory => getNotificationHistory
  | SystemConfig => getSystemConfig
  | RegularTimeslots => getRegularTimeslots
  | SpecialTimeslots => getSpecialTimeslots
  | UpdateTimeslot id body => updateTimeslot id body
  | DeleteTimeslot id => deleteTimeslot id
  end.

Definition timeoutMessage : string := "请求超时，请稍后再试".

End ApiCalls.

(* ------------------------------------------------------------------ *)
(** ** More concrete inputs *)

Module MoreExamples.

(** 12:00-09:00 typed into the form of the page as it starts. *)
Definition invertedForm : Timeslots.State :=
  Timeslots.setFormData (Timeslots.mkFormData "12:00" "09:00" true)
                        Timeslots.initialState.

(** One special group holding two slots, with the special tab open. *)
Definition twoInOneGroup : Timeslots.State :=
  Timeslots.mkState Timeslots.special Timeslots.mockRegularSlots
    [ Timeslots.mkSpecialSlot "1" "2025-05-01"
        [ Timeslots.mkTimeSlot "1-1" "10:00" "15:00" true;
          Timeslots.mkTimeSlot "1-2" "16:00" "17:00" true ] ]
    None false Timeslots.blankForm [].

(** Slot "1" of the regular list clicked for editing, then the special tab
    opened: the selection stays. *)
Definition editOnOtherTab : Timeslots.State :=
  TimeslotsUi.setActiveTab Timeslots.special
    (TimeslotsUi.clickSlot (Timeslots.mkTimeSlot "1" "09:00" "12:00" true)
                           Timeslots.initialState).

(** Slot "1" clicked and its end moved to 13:00. *)
Definition editFirst : Timeslots.State :=
  TimeslotsUi.changeEnd "13:00"
    (TimeslotsUi.clickSlot (Timeslots.mkTimeSlot "1" "09:00" "12:00" true)
                           Timeslots.initialState).

(** A session: type a slot, save it, drag it to the front, open the special
    tab, add there, delete the mock special slot. *)
Definition session : list TimeslotsUi.Event :=
  [ TimeslotsUi.TypeStart "19:00"; TimeslotsUi.TypeEnd "20:30";
    TimeslotsUi.Save Examples.clock0;
    TimeslotsUi.Drag (TimeslotsUi.mkDropResult 2 (Some 0%nat));
    TimeslotsUi.SwitchTab Timeslots.special;
    TimeslotsUi.TypeStart "8:00"; TimeslotsUi.TypeEnd "9:15";
    TimeslotsUi.Save Examples.clock0;
    TimeslotsUi.Delete "1-1" ].

(** Two days; the first is fully booked. *)
Definition calendar : list Booking.DaySlots :=
  [ Examples.fullDay;
    Booking.mkDaySlots "2025-05-21"
      [ Booking.mkSlot "09:00" "12:00" false;
        Booking.mkSlot "14:00" "18:00" true ] ].

(** A whole booking: fill the form, pick the second day, pick its second
    slot. *)
Definition booking : list BookingUi.Action :=
  [ BookingUi.ClickDay 0; BookingUi.ClickSlot 0;
    BookingUi.Input BookingUi.FName "Li Lei";
    BookingUi.Input BookingUi.FEmail "li@example.com";
    BookingUi.Input BookingUi.FPhone "13812345678";
    BookingUi.Input BookingUi.FType "portrait";
    BookingUi.ClickDay 1; BookingUi.ClickSlot 0; BookingUi.ClickSlot 1 ].

(** A stand-in for the email check: the string holds an at sign. *)
Definition hasAt (s : string) : bool := Js.includes "@" s.

(** An answer with status 500 and a JSON body that carries a message. *)
Definition serverError : Api.Response :=
  Api.mkResponse (Some "application/json") false 500 "Internal Server Error"
    (inr "{}") (inr (Js.VObj [("message", Js.VStr "database is down")])).



(** From the page as it starts: open the special tab, add 16:00-17:00 (it
    joins the only group), drag that second slot to the top. *)
Definition lostByDrag : list TimeslotsUi.Event :=
  [ TimeslotsUi.SwitchTab Timeslots.special;
    TimeslotsUi.TypeStart "16:00"; TimeslotsUi.TypeEnd "17:00";
    TimeslotsUi.Save Examples.clock0;
    TimeslotsUi.Drag (TimeslotsUi.mkDropResult 1 (Some 0%nat)) ].

End MoreExamples.

(* ================================================================== *)
(** * Properties *)

(** ** Characters *)

Lemma code_inj (a b : ascii) : Js.code a = Js.code b -> a = b.
Proof.
  unfold Js.code. intros H. apply N2Z.inj in H.
  rewrite <- (ascii_N_embedding a), <- (ascii_N_embedding b). now f_equal.
Qed.

Lemma eqb_code (a b : ascii) : Ascii.eqb a b = (Js.code a =? Js.code b).
Proof.
  destruct (Ascii.eqb_spec a b) as [->|Hne].
  - now rewrite Z.eqb_refl.
  - symmetry. apply Z.eqb_neq. intros H. now apply Hne, code_inj.
Qed.

(** Turn every character test in sight into a comparison of codes. *)
Ltac codes :=
  rewrite ?eqb_code in *;
  change (Js.code "0") with 48 in *; change (Js.code "1") with 49 in *;
  change (Js.code "2") with 50 in *; change (Js.code "3") with 51 in *;
  change (Js.code "5") with 53 in *; change (Js.code "9") with 57 in *;
  change (Js.code ":") with 58 in *; change (Js.code "x") with 120 in *;
  change (Js.code "X") with 88 in *; change (Js.code "-") with 45 in *;
  change (Js.code "+") with 43 in *.

(** ** The 24-hour pattern *)

Lemma test_timePattern (s : string) :
  Regex.test Timeslots.timePattern s = TimeSpec.timeShape s.
Proof.
  unfold Regex.test, Timeslots.timePattern, Regex.range, Regex.lit,
    TimeSpec.timeShape, TimeSpec.between.
  destruct s as [|a [|b [|c [|d [|e [|f s]]]]]];
    cbn [Regex.matchk Regex.at_end]; codes; btauto.
Qed.

(** ** [parseInt] on digits *)

Lemma digit_of_10 (c : ascii) :
  48 <= Js.code c <= 57 -> Js.digit_of 10 c = Some (TimeSpec.digit c).
Proof.
  intros H. unfold Js.digit_of, TimeSpec.digit.
  destruct (Z.leb_spec 48 (Js.code c)); [|lia].
  destruct (Z.leb_spec (Js.code c) 57); [|lia].
  cbn [andb]. destruct (Z.ltb_spec (Js.code c - 48) 10); [reflexivity|lia].
Qed.

Lemma digit_not (c x : ascii) :
  48 <= Js.code c <= 57 -> Js.code x < 48 \/ 57 < Js.code x ->
  Ascii.eqb c x = false.
Proof.
  intros H Hx. rewrite eqb_code. apply Z.eqb_neq. lia.
Qed.

Lemma digit_not_ws (c : ascii) : 48 <= Js.code c <= 57 -> Js.is_ws c = false.
Proof.
  intros H. unfold Js.is_ws. apply orb_false_iff. split.
  - apply andb_false_iff. right. apply Z.leb_gt. lia.
  - apply Z.eqb_neq. lia.
Qed.

Lemma trim_start_digit (c : ascii) (s : string) :
  48 <= Js.code c <= 57 -> Js.trim_start (String c s) = String c s.
Proof.
  intros H. cbn [Js.trim_start]. rewrite (digit_not_ws c H).
  destruct s as [|c2 [|c3 s]]; [reflexivity| |].
  - unfold Js.is_ws2. destruct (Z.eqb_spec (Js.code c) 194); [lia|reflexivity].
  - unfold Js.is_ws2, Js.is_ws3.
    destruct (Z.eqb_spec (Js.code c) 194); [lia|].
    destruct (Z.eqb_spec (Js.code c) 225); [lia|].
    destruct (Z.eqb_spec (Js.code c) 226); [lia|].
    destruct (Z.eqb_spec (Js.code c) 227); [lia|].
    destruct (Z.eqb_spec (Js.code c) 239); [lia|].
    reflexivity.
Qed.

(** A string that starts with two digits, or with one digit and then ends,
    is read in base ten from its first character. *)
Lemma parseInt_digit_string (c d : ascii) (s : string) :
  48 <= Js.code c <= 57 -> 48 <= Js.code d <= 57 ->
  Js.parseInt (String c (String d s))
  = Some (Js.digits_value 10 0 (String c (String d s))).
Proof.
  intros Hc Hd. unfold Js.parseInt. rewrite (trim_start_digit c _ Hc).
  rewrite (digit_not c "-" Hc), (digit_not c "+" Hc)
    by (codes; lia).
  rewrite (digit_not d "x" Hd), (digit_not d "X" Hd) by (codes; lia).
  rewrite andb_false_r.
  cbn [Js.starts_with_digit]. rewrite (digit_of_10 c Hc).
  f_equal. apply Z.mul_1_l.
Qed.

Lemma between_spec (lo hi : Z) (c : ascii) :
  TimeSpec.between lo hi c = true <-> lo <= Js.code c <= hi.
Proof.
  unfold TimeSpec.between. rewrite andb_true_iff, !Z.leb_le. tauto.
Qed.

(** ** What the code computes for a time that matches the pattern *)

Lemma timeNumber_shape (s : string) :
  TimeSpec.timeShape s = true ->
  Timeslots.timeNumber s = Some (TimeSpec.encoding s).
Proof.
  unfold TimeSpec.timeShape, Timeslots.timeNumber, TimeSpec.encoding,
    TimeSpec.hours, TimeSpec.minutes, TimeSpec.decimal.
  destruct s as [|a [|b [|c [|d [|e [|f s]]]]]]; try discriminate.
  - (* H:MM *)
    rewrite !andb_true_iff, !between_spec. intros [[[Ha Hb] Hc] Hd].
    apply Ascii.eqb_eq in Hb. subst b.
    cbn [Js.replace_first Js.split_head TimeSpec.after].
    rewrite (digit_not a ":") by (codes; lia).
    rewrite Ascii.eqb_refl. cbn [append].
    rewrite parseInt_digit_string by lia.
    cbn [Js.digits_value list_ascii_of_string fold_left].
    rewrite !digit_of_10 by lia. f_equal. lia.
  - (* HH:MM *)
    rewrite !andb_true_iff, orb_true_iff, !andb_true_iff, !between_spec.
    intros [[[Hh Hc] Hd] He].
    apply Ascii.eqb_eq in Hc. subst c.
    assert (Ha : 48 <= Js.code a <= 57).
    { destruct Hh as [[Ha _]|[Ha _]]; [lia|].
      apply Ascii.eqb_eq in Ha. subst a. codes. lia. }
    assert (Hb : 48 <= Js.code b <= 57) by (destruct Hh as [[_ ?]|[_ ?]]; lia).
    cbn [Js.replace_first Js.split_head TimeSpec.after].
    rewrite (digit_not a ":"), (digit_not b ":") by (codes; lia).
    rewrite Ascii.eqb_refl. cbn [append].
    rewrite parseInt_digit_string by lia.
    cbn [Js.digits_value list_ascii_of_string fold_left].
    rewrite !digit_of_10 by lia. f_equal. lia.
Qed.

Lemma isHHMM_shape (s : string) :
  TimeSpec.isHHMM s = true -> TimeSpec.timeShape s = true.
Proof.
  unfold TimeSpec.isHHMM, TimeSpec.timeShape, TimeSpec.isDigit, TimeSpec.digit.
  destruct s as [|a [|b [|c [|d [|e [|f s]]]]]]; try discriminate.
  intros H. rewrite !andb_true_iff, !Z.leb_le in H.
  destruct H as [[[[[[[Ha1 Ha2] [Hb1 Hb2]] Hc] [Hd1 Hd2]] [He1 He2]] Hh] Hm].
  rewrite Hc. rewrite !andb_true_iff, orb_true_iff, !andb_true_iff.
  rewrite !between_spec, eqb_code. change (Js.code "2") with 50.
  rewrite Z.eqb_eq. repeat split; try lia.
Qed.

Lemma timeNumber_HHMM (s : string) :
  TimeSpec.isHHMM s = true ->
  Timeslots.timeNumber s = Some (TimeSpec.encoding s).
Proof.
  intros H. now apply timeNumber_shape, isHHMM_shape.
Qed.

(** ** Conflict detection *)

Lemma wellFormed_spec (s : Timeslots.TimeSlot) :
  ConflictSpec.wellFormed s = true ->
  Timeslots.timeNumber (Timeslots.start s)
  = Some (TimeSpec.encoding (Timeslots.start s))
  /\ Timeslots.timeNumber (Timeslots.end_ s)
     = Some (TimeSpec.encoding (Timeslots.end_ s))
  /\ TimeSpec.encoding (Timeslots.start s) < TimeSpec.encoding (Timeslots.end_ s).
Proof.
  unfold ConflictSpec.wellFormed. rewrite !andb_true_iff, Z.ltb_lt.
  intros [[Hs He] Hlt]. auto using timeNumber_HHMM.
Qed.

(** On well-formed slots the three-way test of the callback is the
    half-open overlap, guarded by the identity check. *)
Lemma conflictsWith_overlaps (a b : Timeslots.TimeSlot) :
  ConflictSpec.wellFormed a = true -> ConflictSpec.wellFormed b = true ->
  (Timeslots.conflictsWith a b = true
   <-> Timeslots.id b <> Timeslots.id a /\ ConflictSpec.overlaps a b).
Proof.
  intros Ha Hb.
  destruct (wellFormed_spec a Ha) as (Has & Hae & Halt).
  destruct (wellFormed_spec b Hb) as (Hbs & Hbe & Hblt).
  unfold Timeslots.conflictsWith, ConflictSpec.overlaps.
  destruct (String.eqb_spec (Timeslots.id b) (Timeslots.id a)) as [Heq|Hne].
  - split; [discriminate|]. intros [Hn _]. contradiction.
  - rewrite Has, Hae, Hbs, Hbe. unfold Js.ge, Js.gt, Js.le, Js.lt.
    rewrite !orb_true_iff, !andb_true_iff, !Z.leb_le, !Z.ltb_lt.
    split; [intros H; split; [assumption|lia] | intros [_ H]; lia].
Qed.

Lemma conflictsWith_same_id (a b : Timeslots.TimeSlot) :
  Timeslots.id b = Timeslots.id a -> Timeslots.conflictsWith a b = false.
Proof.
  intros H. unfold Timeslots.conflictsWith.
  now rewrite H, String.eqb_refl.
Qed.

(** C1. For a candidate and a pool whose fields are zero-padded HH:MM
    strings with end after start, [checkConflicts] answers true exactly when
    some pool slot with another id overlaps the candidate as half-open
    intervals of the encodings ([s1 < e2] and [s2 < e1]); it answers false
    on the empty pool, and a pool made only of slots with the candidate's id
    gives false. *)
Theorem checkConflicts_overlap (st : Timeslots.State) (c : Timeslots.TimeSlot) :
  ConflictSpec.wellFormed c = true ->
  (forall s, In s (Timeslots.slotsToCheck st) -> ConflictSpec.wellFormed s = true) ->
  (Timeslots.checkConflicts st c = true
   <-> exists s, In s (Timeslots.slotsToCheck st)
                 /\ Timeslots.id s <> Timeslots.id c
                 /\ ConflictSpec.overlaps c s)
  /\ (Timeslots.slotsToCheck st = [] -> Timeslots.checkConflicts st c = false)
  /\ ((forall s, In s (Timeslots.slotsToCheck st) -> Timeslots.id s = Timeslots.id c)
      -> Timeslots.checkConflicts st c = false).
Proof.
  intros Hc Hpool. unfold Timeslots.checkConflicts. repeat split.
  - rewrite existsb_exists. intros (s & Hin & Hs).
    exists s. split; [assumption|].
    now apply conflictsWith_overlaps; auto.
  - intros (s & Hin & Hne & Hov). apply existsb_exists.
    exists s. split; [assumption|].
    apply conflictsWith_overlaps; auto.
  - intros ->. reflexivity.
  - intros Hsame. apply not_true_is_false. rewrite existsb_exists.
    intros (s & Hin & Hs).
    rewrite (conflictsWith_same_id c s (Hsame s Hin)) in Hs. discriminate.
Qed.

Lemma checkConflicts_overlap_witness :
  ConflictSpec.wellFormed Examples.slotA = true
  /\ Timeslots.checkConflicts
       (ConflictSpec.poolState Timeslots.special Examples.poolA)
       Examples.slotA = true.
Proof.
  split; [reflexivity|].
  apply (checkConflicts_overlap
           (ConflictSpec.poolState Timeslots.special Examples.poolA)
           Examples.slotA).
  - reflexivity.
  - intros s [<-|[<-|[<-|[]]]]; reflexivity.
  - exists (Timeslots.mkTimeSlot "1" "09:00" "12:00" true).
    split; [right; left; reflexivity|].
    split; [discriminate|]. split; vm_compute; reflexivity.
Defined.

Lemma overlaps_sym (a b : Timeslots.TimeSlot) :
  ConflictSpec.overlaps a b <-> ConflictSpec.overlaps b a.
Proof.
  unfold ConflictSpec.overlaps. tauto.
Qed.

Lemma conflictsWith_sym (a b : Timeslots.TimeSlot) :
  ConflictSpec.wellFormed a = true -> ConflictSpec.wellFormed b = true ->
  Timeslots.conflictsWith a b = Timeslots.conflictsWith b a.
Proof.
  intros Ha Hb. apply eq_true_iff_eq.
  rewrite (conflictsWith_overlaps a b Ha Hb), (conflictsWith_overlaps b a Hb Ha).
  rewrite (overlaps_sym a b).
  split; intros [Hne Hov]; split; auto.
Qed.

(** C5. Conflict checking is symmetric: for two well-formed slots with
    distinct ids, checking [a] against the pool [[b]] gives the same answer
    as checking [b] against the pool [[a]]. *)
Theorem checkConflicts_symmetric
  (st1 st2 : Timeslots.State) (a b : Timeslots.TimeSlot) :
  Timeslots.slotsToCheck st1 = [b] -> Timeslots.slotsToCheck st2 = [a] ->
  ConflictSpec.wellFormed a = true -> ConflictSpec.wellFormed b = true ->
  Timeslots.id a <> Timeslots.id b ->
  Timeslots.checkConflicts st1 a = Timeslots.checkConflicts st2 b.
Proof.
  intros H1 H2 Ha Hb _. unfold Timeslots.checkConflicts.
  rewrite H1, H2. cbn [existsb]. rewrite !orb_false_r.
  now apply conflictsWith_sym.
Qed.

Lemma checkConflicts_symmetric_witness :
  Timeslots.checkConflicts
    (ConflictSpec.poolState Timeslots.regular [Examples.late]) Examples.morning
  = Timeslots.checkConflicts
      (ConflictSpec.poolState Timeslots.special [Examples.morning]) Examples.late.
Proof.
  apply (checkConflicts_symmetric
           (ConflictSpec.poolState Timeslots.regular [Examples.late])
           (ConflictSpec.poolState Timeslots.special [Examples.morning])
           Examples.morning Examples.late).
  - reflexivity.
  - reflexivity.
  - reflexivity.
  - reflexivity.
  - discriminate.
Defined.

(** C6. The boundary is half-open: 09:00-12:00 against a pool holding only
    12:00-14:00 (another id) is no conflict, and against a pool holding only
    11:00-13:00 it is a conflict. *)
Theorem checkConflicts_boundary
  (st : Timeslots.State) (a b : Timeslots.TimeSlot) :
  Timeslots.slotsToCheck st = [b] ->
  Timeslots.id a <> Timeslots.id b ->
  Timeslots.start a = "09:00" -> Timeslots.end_ a = "12:00" ->
  (Timeslots.start b = "12:00" -> Timeslots.end_ b = "14:00" ->
   Timeslots.checkConflicts st a = false)
  /\ (Timeslots.start b = "11:00" -> Timeslots.end_ b = "13:00" ->
      Timeslots.checkConflicts st a = true).
Proof.
  intros Hpool Hid Has Hae.
  assert (Hneq : String.eqb (Timeslots.id b) (Timeslots.id a) = false).
  { apply String.eqb_neq. congruence. }
  unfold Timeslots.checkConflicts, Timeslots.conflictsWith.
  rewrite Hpool. cbn [existsb]. rewrite Hneq, Has, Hae.
  split; intros Hbs Hbe; rewrite Hbs, Hbe; reflexivity.
Qed.

Lemma checkConflicts_boundary_witness :
  Timeslots.checkConflicts
    (ConflictSpec.poolState Timeslots.regular [Examples.noon]) Examples.morning
  = false
  /\ Timeslots.checkConflicts
       (ConflictSpec.poolState Timeslots.regular [Examples.late]) Examples.morning
     = true.
Proof.
  split.
  - apply (checkConflicts_boundary
             (ConflictSpec.poolState Timeslots.regular [Examples.noon])
             Examples.morning Examples.noon);
      try reflexivity; discriminate.
  - apply (checkConflicts_boundary
             (ConflictSpec.poolState Timeslots.regular [Examples.late])
             Examples.morning Examples.late);
      try reflexivity; discriminate.
Defined.

(** ** Validation *)

Lemma string_regex_nil (r : Regex.re) (msg key v : string) :
  Zod.string_regex r msg key v = [] <-> Regex.test r v = true.
Proof.
  unfold Zod.string_regex. destruct (Regex.test r v); split; congruence.
Qed.

Lemma timeNumber_pattern (s : string) :
  Regex.test Timeslots.timePattern s = true ->
  Timeslots.timeNumber s = Some (TimeSpec.encoding s).
Proof.
  rewrite test_timePattern. apply timeNumber_shape.
Qed.

Lemma endAfterStart_pattern (s e : string) (en : bool) :
  Regex.test Timeslots.timePattern s = true ->
  Regex.test Timeslots.timePattern e = true ->
  Timeslots.endAfterStart (Timeslots.mkFormData s e en)
  = (TimeSpec.encoding s <? TimeSpec.encoding e).
Proof.
  intros Hs He. unfold Timeslots.endAfterStart. cbn [Timeslots.fstart Timeslots.fend].
  now rewrite (timeNumber_pattern s Hs), (timeNumber_pattern e He).
Qed.

(** C2. Validation of a pair of strings succeeds exactly when both match
    the 24-hour pattern and the encoding of the end is greater than that of
    the start.  A field that fails the pattern gives the format issue of
    that field (so do ["25:00"] and ["9:60"]); two well-formed fields with
    end at or before start give the range issue and nothing else.
    [validateForm] answers true exactly when there is no issue. *)
Theorem timeSlotSchema_validation (s e : string) (en : bool) :
  let data := Timeslots.mkFormData s e en in
  let matches x := Regex.test Timeslots.timePattern x = true in
  (Timeslots.timeSlotSchema data = []
   <-> matches s /\ matches e /\ TimeSpec.encoding s < TimeSpec.encoding e)
  /\ (~ matches s ->
      In (Zod.Issue ["start"] Timeslots.msgStart) (Timeslots.timeSlotSchema data))
  /\ (~ matches e ->
      In (Zod.Issue ["end"] Timeslots.msgEnd) (Timeslots.timeSlotSchema data))
  /\ (matches s -> matches e -> TimeSpec.encoding e <= TimeSpec.encoding s ->
      Timeslots.timeSlotSchema data = [Zod.Issue [] Timeslots.msgRange])
  /\ ~ matches "25:00" /\ ~ matches "9:60"
  /\ (forall st, Timeslots.formData st = data ->
        (fst (Timeslots.validateForm st) = true
         <-> Timeslots.timeSlotSchema data = [])).
Proof.
  intros data matches. subst data matches. cbv beta.
  unfold Timeslots.timeSlotSchema. cbn [Timeslots.fstart Timeslots.fend].
  split; [|split; [|split; [|split; [|split; [|split]]]]].
  - split.
    + intros H. apply app_eq_nil in H. destruct H as [Hs H].
      apply app_eq_nil in H. destruct H as [He H].
      apply string_regex_nil in Hs, He.
      unfold Zod.refine in H. rewrite (endAfterStart_pattern s e en Hs He) in H.
      destruct (Z.ltb_spec (TimeSpec.encoding s) (TimeSpec.encoding e));
        [auto|discriminate].
    + intros (Hs & He & Hlt). unfold Zod.string_regex, Zod.refine.
      rewrite Hs, He, (endAfterStart_pattern s e en Hs He).
      apply Z.ltb_lt in Hlt. now rewrite Hlt.
  - intros Hs. unfold Zod.string_regex at 1.
    destruct (Regex.test Timeslots.timePattern s); [congruence|].
    left. reflexivity.
  - intros He. apply in_or_app. right. apply in_or_app. left.
    unfold Zod.string_regex.
    destruct (Regex.test Timeslots.timePattern e); [congruence|].
    left. reflexivity.
  - intros Hs He Hle. unfold Zod.string_regex, Zod.refine.
    rewrite Hs, He, (endAfterStart_pattern s e en Hs He).
    apply Z.ltb_ge in Hle. now rewrite Hle.
  - intros H. vm_compute in H. discriminate H.
  - intros H. vm_compute in H. discriminate H.
  - intros st Hf. unfold Timeslots.validateForm. rewrite Hf.
    unfold Timeslots.timeSlotSchema. cbn [Timeslots.fstart Timeslots.fend].
    destruct (Zod.string_regex Timeslots.timePattern Timeslots.msgStart "start" s ++
              Zod.string_regex Timeslots.timePattern Timeslots.msgEnd "end" e ++
              Zod.refine Timeslots.endAfterStart Timeslots.msgRange
                (Timeslots.mkFormData s e en))%list;
      cbn [fst]; split; congruence.
Qed.

Lemma timeSlotSchema_validation_witness :
  Timeslots.timeSlotSchema (Timeslots.mkFormData "09:00" "12:00" true) = []
  /\ Timeslots.timeSlotSchema (Timeslots.mkFormData "12:00" "12:00" true)
     = [Zod.Issue [] Timeslots.msgRange]
  /\ In (Zod.Issue ["start"] Timeslots.msgStart)
        (Timeslots.timeSlotSchema (Timeslots.mkFormData "25:00" "09:00" true)).
Proof.
  split; [|split].
  - destruct (timeSlotSchema_validation "09:00" "12:00" true) as [Hiff _].
    apply Hiff. repeat split; vm_compute; reflexivity.
  - destruct (timeSlotSchema_validation "12:00" "12:00" true)
      as (_ & _ & _ & Hrange & _).
    apply Hrange; vm_compute; congruence.
  - destruct (timeSlotSchema_validation "25:00" "09:00" true)
      as (_ & Hstart & _).
    apply Hstart. vm_compute. discriminate.
Defined.

(** ** Saving *)

Lemma validateForm_ok (st : Timeslots.State) :
  Timeslots.timeSlotSchema (Timeslots.formData st) = [] ->
  Timeslots.validateForm st = (true, Timeslots.setErrors [] st).
Proof.
  intros H. unfold Timeslots.validateForm. now rewrite H.
Qed.




(** C10. Adding a slot on the special tab: when a special group exists the
    new slot is appended to the first group, whatever its date, and every
    other group is left as it is; only when the special list is empty is a
    group created, dated by the date part of the current ISO time. *)
Theorem handleSave_special_first_group
  (clock : Timeslots.Clock) (st : Timeslots.State) :
  Timeslots.timeSlotSchema (Timeslots.formData st) = [] ->
  Timeslots.activeTab st = Timeslots.special ->
  Timeslots.isEditing st = false \/ Timeslots.selectedSlot st = None ->
  let st' := fst (Timeslots.handleSave clock st) in
  let newSlot :=
    Timeslots.withId (Timeslots.formData st) (Js.toString (Timeslots.now1 clock)) in
  (forall g rest,
      Timeslots.specialSlots st = g :: rest ->
      Timeslots.specialSlots st'
      = Timeslots.mkSpecialSlot (Timeslots.sid g) (Timeslots.date g)
          (Timeslots.slots g ++ [newSlot])%list :: rest)
  /\ (Timeslots.specialSlots st = [] ->
      Timeslots.specialSlots st'
      = [Timeslots.mkSpecialSlot (Js.toString (Timeslots.now2 clock))
           (Js.split_head "T" (Timeslots.isoString clock)) [newSlot]])
  /\ Timeslots.regularSlots st' = Timeslots.regularSlots st.
Proof.
  intros Hok Htab Hadd st' newSlot. subst st' newSlot.
  unfold Timeslots.handleSave. rewrite (validateForm_ok st Hok), Htab.
  cbn [negb fst].
  assert (Hcase :
    match Timeslots.isEditing st, Timeslots.selectedSlot st with
    | true, Some _ => False
    | _, _ => True
    end).
  { destruct Hadd as [-> | ->]; [exact I|].
    destruct (Timeslots.isEditing st); exact I. }
  split; [|split].
  - intros g rest Hsp.
    destruct (Timeslots.isEditing st), (Timeslots.selectedSlot st);
      try contradiction; rewrite Hsp; reflexivity.
  - intros Hsp.
    destruct (Timeslots.isEditing st), (Timeslots.selectedSlot st);
      try contradiction; rewrite Hsp; reflexivity.
  - destruct (Timeslots.isEditing st), (Timeslots.selectedSlot st);
      try contradiction;
      destruct (0 <? Z.of_nat (List.length (Timeslots.specialSlots st)));
      reflexivity.
Qed.

Lemma handleSave_special_first_group_witness :
  Timeslots.specialSlots
    (fst (Timeslots.handleSave Examples.clock0 Examples.specialForm))
  = [ Timeslots.mkSpecialSlot "1" "2025-05-01"
        [ Timeslots.mkTimeSlot "1-1" "10:00" "15:00" true;
          Timeslots.mkTimeSlot "1747735872000" "10:00" "11:00" true ] ].
Proof.
  destruct (handleSave_special_first_group Examples.clock0 Examples.specialForm)
    as (Hfirst & _).
  - reflexivity.
  - reflexivity.
  - left. reflexivity.
  - exact (Hfirst _ _ eq_refl).
Defined.

(** ** Selection *)

(** C3. From any state, selecting a date gives that date and no slot;
    selecting a slot afterwards keeps the date and sets the slot.  Selecting
    2025-05-20 and then 09:00-12:00 gives date and slot selected, and
    selecting 2025-05-21 after that gives that date with no slot. *)
Theorem handleDateSelect_clears_slot (st : Booking.State) (d s : string) :
  let st1 := Booking.handleDateSelect d st in
  let st2 := Booking.handleSlotSelect s st1 in
  (Booking.selectedDate st1 = Some d /\ Booking.selectedSlot st1 = None)
  /\ (Booking.selectedDate st2 = Some d /\ Booking.selectedSlot st2 = Some s)
  /\ Booking.selection st1 = Some (Booking.DateSelected d)
  /\ Booking.selection st2 = Some (Booking.DateAndSlotSelected d s)
  /\ Booking.selection
       (Booking.handleSlotSelect "09:00-12:00"
          (Booking.handleDateSelect "2025-05-20" st))
     = Some (Booking.DateAndSlotSelected "2025-05-20" "09:00-12:00")
  /\ Booking.selection
       (Booking.handleDateSelect "2025-05-21"
          (Booking.handleSlotSelect "09:00-12:00"
             (Booking.handleDateSelect "2025-05-20" st)))
     = Some (Booking.DateSelected "2025-05-21").
Proof.
  cbv zeta. repeat split.
Qed.

(** ** Availability *)

(** C7. A day is selectable exactly when one of its slots is available: no
    available slot (in particular no slot at all) gives false, and a list
    that holds an available slot gives true. *)
Theorem hasAvailable_iff (day : Booking.DaySlots) :
  (Booking.hasAvailable day = true
   <-> exists s, In s (Booking.slots day) /\ Booking.available s = true)
  /\ ((forall s, In s (Booking.slots day) -> Booking.available s = false) ->
      Booking.hasAvailable day = false)
  /\ (Booking.slots day = [] -> Booking.hasAvailable day = false)
  /\ (forall s before after,
        Booking.available s = true ->
        Booking.hasAvailable
          (Booking.mkDaySlots (Booking.date day) (before ++ s :: after)%list)
        = true)
  /\ Booking.hasAvailable Examples.fullDay = false
  /\ Booking.hasAvailable Examples.openDay = true.
Proof.
  unfold Booking.hasAvailable.
  split; [|split; [|split; [|split; [|split]]]].
  - apply existsb_exists.
  - intros Hnone. apply not_true_is_false. rewrite existsb_exists.
    intros (s & Hin & Hs). rewrite (Hnone s Hin) in Hs. discriminate.
  - intros ->. reflexivity.
  - intros s before after Hs. cbn [Booking.slots].
    apply existsb_exists. exists s. split; [|assumption].
    apply in_or_app. right. left. reflexivity.
  - reflexivity.
  - reflexivity.
Qed.

Lemma hasAvailable_iff_witness :
  Booking.hasAvailable Examples.fullDay = false
  /\ Booking.hasAvailable
       (Booking.mkDaySlots "2025-05-20"
          (Booking.slots Examples.fullDay
           ++ Booking.mkSlot "14:00" "18:00" true :: [])%list) = true.
Proof.
  destruct (hasAvailable_iff Examples.fullDay) as (_ & Hnone & _ & Hadd & _).
  split.
  - apply Hnone. intros s [<-|[]]. reflexivity.
  - apply (Hadd (Booking.mkSlot "14:00" "18:00" true)
                (Booking.slots Examples.fullDay) []).
    reflexivity.
Defined.

(** ** The fetch wrapper *)

(** The [try] block returns only for a response of JSON type with an ok
    status whose body parses; everything else is a failure. *)
Lemma tryBlock_returns (net : Api.thrown + Api.Response) (v : Js.value) :
  Api.tryBlock net = inr v
  <-> exists resp, net = inr resp /\ Api.notJson resp = false
                   /\ Api.ok resp = true /\ Api.json resp = inr v.
Proof.
  unfold Api.tryBlock. split.
  - destruct net as [e|resp]; [discriminate|].
    destruct (Api.notJson resp) eqn:Hn.
    + destruct (Api.text resp) as [e|t]; [discriminate|].
      destruct (Js.startsWith "<!DOCTYPE html>" t); discriminate.
    + destruct (Api.ok resp) eqn:Hok; cbn [negb].
      * destruct (Api.json resp) as [e|data] eqn:Hj; [discriminate|].
        intros H. exists resp. repeat split; congruence.
      * destruct (Api.json resp); discriminate.
  - intros (resp & -> & Hn & Hok & Hj). now rewrite Hn, Hok, Hj.
Qed.

Lemma fetchAPI_failure (endpoint : string) (options : option Api.RequestInit)
  (env : Api.Env) (e : Api.thrown) :
  Api.tryBlock (Api.network env) = inl e ->
  Api.fetchAPI endpoint options env
  = Api.mkOutcome (Api.request endpoint options) [Api.errorMessage e]
      (if String.eqb endpoint "/timeslots"
       then inr (Api.fallback (Api.isoNow env)) else inl e).
Proof.
  intros H. unfold Api.fetchAPI. rewrite H.
  destruct (String.eqb endpoint "/timeslots"); reflexivity.
Qed.

(** C4. Every request sent by [fetchAPI] carries an 8 second timeout.
    Whenever the request fails (the [try] block throws: a rejected fetch such
    as a timeout or a network error, a response that is not JSON, a status
    that is not ok, a body that does not parse), the failure is shown as one
    error toast; for ['/timeslots'] the call then returns the fallback of
    one day, the current date, with the slots 09:00-12:00 and 14:00-18:00,
    both available, and for every other endpoint it rethrows the error. *)
Theorem fetchAPI_timeout_and_fallback
  (endpoint : string) (options : option Api.RequestInit) (env : Api.Env) :
  let out := Api.fetchAPI endpoint options env in
  Api.timeoutMs (Api.sent out) = 8000
  /\ (forall e,
        Api.tryBlock (Api.network env) = inl e ->
        Api.toasts out = [Api.errorMessage e]
        /\ (endpoint = "/timeslots" ->
            Api.settled out
            = inr (Js.VArr
                     [ Js.VObj
                         [ ("date", Js.VStr (Js.split_head "T" (Api.isoNow env)));
                           ("slots",
                            Js.VArr
                              [ Js.VObj [ ("start", Js.VStr "09:00");
                                          ("end", Js.VStr "12:00");
                                          ("available", Js.VBool true) ];
                                Js.VObj [ ("start", Js.VStr "14:00");
                                          ("end", Js.VStr "18:00");
                                          ("available", Js.VBool true) ] ]) ] ]))
        /\ (endpoint <> "/timeslots" -> Api.settled out = inl e))
  /\ (forall v,
        Api.tryBlock (Api.network env) = inr v
        <-> exists resp, Api.network env = inr resp /\ Api.notJson resp = false
                         /\ Api.ok resp = true /\ Api.json resp = inr v).
Proof.
  cbv zeta. split; [|split].
  - unfold Api.fetchAPI.
    destruct (Api.tryBlock (Api.network env));
      [destruct (String.eqb endpoint "/timeslots")|]; reflexivity.
  - intros e He. rewrite (fetchAPI_failure endpoint options env e He).
    cbn [Api.toasts Api.settled]. split; [reflexivity|]. split.
    + intros ->. reflexivity.
    + intros Hne. apply String.eqb_neq in Hne. now rewrite Hne.
  - intros v. apply tryBlock_returns.
Qed.

Lemma fetchAPI_timeout_and_fallback_witness :
  Api.toasts (Api.getAvailableTimeslots Examples.timedOut)
  = ["API请求错误: signal timed out"]
  /\ Api.settled (Api.getAvailableTimeslots Examples.timedOut)
     = inr (Api.fallback "2025-05-20T10:11:12.000Z").
Proof.
  destruct (fetchAPI_timeout_and_fallback "/timeslots" None Examples.timedOut)
    as (_ & Hfail & _).
  destruct (Hfail (Api.Err Api.DOMException "TimeoutError" "signal timed out")
                  eq_refl) as (Htoast & Hfall & _).
  split; [exact Htoast | exact (Hfall eq_refl)].
Defined.

Lemma htmlError_distinct (ct : option string) :
  Api.htmlError <> Api.invalidTypeError ct.
Proof.
  unfold Api.htmlError, Api.invalidTypeError, Api.newError.
  intros H. injection H as H. cbn in H. discriminate H.
Qed.

Lemma notJson_true (resp : Api.Response) :
  Api.contentType resp = None
  \/ (exists ct, Api.contentType resp = Some ct
                 /\ Js.includes "application/json" ct = false) ->
  Api.notJson resp = true.
Proof.
  unfold Api.notJson. intros [-> | (ct & -> & H)]; [reflexivity|].
  destruct ct; [reflexivity|]. now rewrite H.
Qed.

(** C8, as the claim is written, fails for the availability endpoint: an
    HTML page answered to ['/timeslots'] does not make [fetchAPI] reject; it
    returns the fallback. *)
Lemma fetchAPI_html_timeslots_not_rejected :
  Api.notJson Examples.htmlPage = true
  /\ ~ (exists e,
          Api.settled (Api.fetchAPI "/timeslots" None Examples.htmlAnswer) = inl e).
Proof.
  split; [reflexivity|]. intros (e & H). vm_compute in H. discriminate H.
Qed.

(** C8, amended.  For a response whose content type is absent or does not
    include [application/json], the body is never returned.  For an endpoint
    other than ['/timeslots'] the call rejects: with the HTML-page error
    when the body text starts with the document marker, with the
    invalid-type error naming the content type otherwise (with the error of
    reading the body when that fails), and the two errors differ.  For
    ['/timeslots'] the call returns the fallback instead.  In both cases the
    error is shown as a toast. *)
Theorem fetchAPI_rejects_non_json
  (endpoint : string) (options : option Api.RequestInit) (env : Api.Env)
  (resp : Api.Response) :
  Api.network env = inr resp ->
  Api.contentType resp = None
  \/ (exists ct, Api.contentType resp = Some ct
                 /\ Js.includes "application/json" ct = false) ->
  let out := Api.fetchAPI endpoint options env in
  let raised :=
    match Api.text resp with
    | inl e => e
    | inr t =>
        if Js.startsWith "<!DOCTYPE html>" t then Api.htmlError
        else Api.invalidTypeError (Api.contentType resp)
    end in
  Api.toasts out = [Api.errorMessage raised]
  /\ (endpoint <> "/timeslots" -> Api.settled out = inl raised)
  /\ (endpoint = "/timeslots" ->
      Api.settled out = inr (Api.fallback (Api.isoNow env)))
  /\ Api.htmlError <> Api.invalidTypeError (Api.contentType resp).
Proof.
  intros Hnet Hct out raised.
  assert (Htry : Api.tryBlock (Api.network env) = inl raised).
  { subst raised. unfold Api.tryBlock.
    rewrite Hnet, (notJson_true resp Hct).
    destruct (Api.text resp) as [e|t]; [reflexivity|].
    destruct (Js.startsWith "<!DOCTYPE html>" t); reflexivity. }
  subst out. rewrite (fetchAPI_failure endpoint options env raised Htry).
  cbn [Api.toasts Api.settled]. split; [reflexivity|]. split; [|split].
  - intros Hne. apply String.eqb_neq in Hne. now rewrite Hne.
  - intros ->. reflexivity.
  - apply htmlError_distinct.
Qed.

Lemma fetchAPI_rejects_non_json_witness :
  Api.settled (Api.fetchAPI "/settings" None Examples.htmlAnswer)
  = inl Api.htmlError
  /\ Api.toasts (Api.fetchAPI "/settings" None Examples.htmlAnswer)
     = ["API请求错误: 服务器返回了HTML页面而不是JSON数据"].
Proof.
  destruct (fetchAPI_rejects_non_json "/settings" None Examples.htmlAnswer
              Examples.htmlPage eq_refl)
    as (Htoast & Hrej & _).
  - right. exists "text/html; charset=utf-8". split; reflexivity.
  - split; [apply Hrej; discriminate | exact Htoast].
Defined.

(* ================================================================== *)
(** * Further properties of the handlers *)

(** ** The error map of [validateForm] *)

(** X1. [validateForm] files each issue under the first element of its
    path.  A field that fails the pattern gets its message under its own
    key.  The range message has an empty path and lands under the key
    ["undefined"]: when both fields match the pattern it is there exactly
    when the end is not after the start, and then the form is refused while
    [errors.start] and [errors.end] stay unset. *)
Theorem validateForm_errors (st : Timeslots.State) :
  let s := Timeslots.fstart (Timeslots.formData st) in
  let e := Timeslots.fend (Timeslots.formData st) in
  let errs := Timeslots.errors (snd (Timeslots.validateForm st)) in
  JsRecord.get "start" errs
  = (if Regex.test Timeslots.timePattern s then None else Some Timeslots.msgStart)
  /\ JsRecord.get "end" errs
     = (if Regex.test Timeslots.timePattern e then None else Some Timeslots.msgEnd)
  /\ (Regex.test Timeslots.timePattern s = true ->
      Regex.test Timeslots.timePattern e = true ->
      JsRecord.get "undefined" errs
      = (if TimeSpec.encoding s <? TimeSpec.encoding e
         then None else Some Timeslots.msgRange))
  /\ (Regex.test Timeslots.timePattern s = true ->
      Regex.test Timeslots.timePattern e = true ->
      TimeSpec.encoding e <= TimeSpec.encoding s ->
      fst (Timeslots.validateForm st) = false
      /\ JsRecord.get "start" errs = None /\ JsRecord.get "end" errs = None
      /\ JsRecord.get "undefined" errs = Some Timeslots.msgRange).
Proof.
  cbv zeta.
  assert (Hmap :
    JsRecord.get "start" (Timeslots.errors (snd (Timeslots.validateForm st)))
    = (if Regex.test Timeslots.timePattern (Timeslots.fstart (Timeslots.formData st))
       then None else Some Timeslots.msgStart)
    /\ JsRecord.get "end" (Timeslots.errors (snd (Timeslots.validateForm st)))
       = (if Regex.test Timeslots.timePattern (Timeslots.fend (Timeslots.formData st))
          then None else Some Timeslots.msgEnd)
    /\ JsRecord.get "undefined" (Timeslots.errors (snd (Timeslots.validateForm st)))
       = (if Timeslots.endAfterStart (Timeslots.formData st)
          then None else Some Timeslots.msgRange)
    /\ fst (Timeslots.validateForm st)
       = Regex.test Timeslots.timePattern (Timeslots.fstart (Timeslots.formData st))
         && Regex.test Timeslots.timePattern (Timeslots.fend (Timeslots.formData st))
         && Timeslots.endAfterStart (Timeslots.formData st)).
  { unfold Timeslots.validateForm, Timeslots.timeSlotSchema,
      Zod.string_regex, Zod.refine.
    destruct (Regex.test Timeslots.timePattern
                (Timeslots.fstart (Timeslots.formData st)));
      destruct (Regex.test Timeslots.timePattern
                  (Timeslots.fend (Timeslots.formData st)));
      destruct (Timeslots.endAfterStart (Timeslots.formData st));
      repeat split. }
  destruct Hmap as (Hs & He & Hu & Hok).
  assert (Hafter :
    Regex.test Timeslots.timePattern (Timeslots.fstart (Timeslots.formData st)) = true ->
    Regex.test Timeslots.timePattern (Timeslots.fend (Timeslots.formData st)) = true ->
    Timeslots.endAfterStart (Timeslots.formData st)
    = (TimeSpec.encoding (Timeslots.fstart (Timeslots.formData st))
       <? TimeSpec.encoding (Timeslots.fend (Timeslots.formData st)))).
  { destruct (Timeslots.formData st) as [fs fe fen].
    cbn [Timeslots.fstart Timeslots.fend].
    apply endAfterStart_pattern. }
  split; [exact Hs|]. split; [exact He|]. split.
  - intros Hms Hme. now rewrite Hu, (Hafter Hms Hme).
  - intros Hms Hme Hle. rewrite Hs, He, Hu, Hok, (Hafter Hms Hme), Hms, Hme.
    apply Z.ltb_ge in Hle. rewrite Hle. repeat split.
Qed.

Lemma validateForm_errors_witness :
  fst (Timeslots.validateForm MoreExamples.invertedForm) = false
  /\ JsRecord.get "start"
       (Timeslots.errors (snd (Timeslots.validateForm MoreExamples.invertedForm)))
     = None
  /\ JsRecord.get "end"
       (Timeslots.errors (snd (Timeslots.validateForm MoreExamples.invertedForm)))
     = None.
Proof.
  destruct (validateForm_errors MoreExamples.invertedForm) as (_ & _ & _ & H).
  destruct H as (Hfst & Hstart & Hend & _); [vm_compute; congruence ..|].
  auto.
Defined.

(** ** What [handleSave] leaves alone *)

(** X2. When the form does not pass the schema, [handleSave] stores
    nothing: both slot lists, the selection, the editing flag, the form and
    the tab are as before, and no toast is shown. *)
Theorem handleSave_invalid_noop (clock : Timeslots.Clock) (st : Timeslots.State) :
  Timeslots.timeSlotSchema (Timeslots.formData st) <> [] ->
  let st' := fst (Timeslots.handleSave clock st) in
  Timeslots.regularSlots st' = Timeslots.regularSlots st
  /\ Timeslots.specialSlots st' = Timeslots.specialSlots st
  /\ Timeslots.selectedSlot st' = Timeslots.selectedSlot st
  /\ Timeslots.isEditing st' = Timeslots.isEditing st
  /\ Timeslots.formData st' = Timeslots.formData st
  /\ Timeslots.activeTab st' = Timeslots.activeTab st
  /\ snd (Timeslots.handleSave clock st) = [].
Proof.
  intros Hbad. cbv zeta. unfold Timeslots.handleSave, Timeslots.validateForm.
  destruct (Timeslots.timeSlotSchema (Timeslots.formData st));
    [contradiction|]. cbn. repeat split.
Qed.

Lemma handleSave_invalid_noop_witness :
  Timeslots.regularSlots
    (fst (Timeslots.handleSave Examples.clock0 MoreExamples.invertedForm))
  = Timeslots.mockRegularSlots
  /\ snd (Timeslots.handleSave Examples.clock0 MoreExamples.invertedForm) = [].
Proof.
  destruct (handleSave_invalid_noop Examples.clock0 MoreExamples.invertedForm)
    as (Hreg & _ & _ & _ & _ & _ & Htoast).
  - vm_compute. discriminate.
  - split; [exact Hreg | exact Htoast].
Defined.

(** ** The warning on unreadable times *)

Lemma conflictsWith_nan (c slot : Timeslots.TimeSlot) :
  Timeslots.timeNumber (Timeslots.start c) = None ->
  Timeslots.timeNumber (Timeslots.end_ c) = None ->
  Timeslots.conflictsWith c slot = false.
Proof.
  intros Hs He. unfold Timeslots.conflictsWith. rewrite Hs, He.
  destruct (String.eqb (Timeslots.id slot) (Timeslots.id c)); [reflexivity|].
  unfold Js.ge, Js.gt, Js.le, Js.lt.
  destruct (Timeslots.timeNumber (Timeslots.start slot)),
    (Timeslots.timeNumber (Timeslots.end_ slot)); reflexivity.
Qed.

Lemma existsb_all_false {A : Type} (f : A -> bool) (l : list A) :
  (forall x, f x = false) -> existsb f l = false.
Proof.
  intros H. induction l as [|x l IH]; [reflexivity|].
  cbn [existsb]. now rewrite H, IH.
Qed.

(** X3. A candidate whose start and end both read as NaN never conflicts,
    whatever the pool holds; so the blank form shows no warning, and neither
    does the page right after a successful save, which blanks the form. *)
Theorem checkConflicts_nan (st : Timeslots.State) (c : Timeslots.TimeSlot) :
  (Timeslots.timeNumber (Timeslots.start c) = None ->
   Timeslots.timeNumber (Timeslots.end_ c) = None ->
   Timeslots.checkConflicts st c = false)
  /\ (Timeslots.formData st = Timeslots.blankForm ->
      Timeslots.showsConflictWarning st = false)
  /\ (forall clock,
        Timeslots.timeSlotSchema (Timeslots.formData st) = [] ->
        Timeslots.showsConflictWarning (fst (Timeslots.handleSave clock st)) = false).
Proof.
  split; [|split].
  - intros Hs He. unfold Timeslots.checkConflicts.
    apply existsb_all_false. intros slot. now apply conflictsWith_nan.
  - intros Hblank. unfold Timeslots.showsConflictWarning, Timeslots.checkConflicts.
    apply existsb_all_false. intros slot.
    apply conflictsWith_nan; unfold Timeslots.candidate; rewrite Hblank; reflexivity.
  - intros clock Hok.
    unfold Timeslots.showsConflictWarning, Timeslots.checkConflicts.
    apply existsb_all_false. intros slot.
    apply conflictsWith_nan; unfold Timeslots.candidate, Timeslots.handleSave;
      rewrite (validateForm_ok st Hok); reflexivity.
Qed.

Lemma checkConflicts_nan_witness :
  Timeslots.showsConflictWarning Examples.overlappingForm = true
  /\ Timeslots.showsConflictWarning
       (fst (Timeslots.handleSave Examples.clock0 Examples.overlappingForm))
     = false.
Proof.
  split; [reflexivity|].
  destruct (checkConflicts_nan Examples.overlappingForm Examples.slotA)
    as (_ & _ & Hsaved).
  apply Hsaved. reflexivity.
Defined.

(** ** Deleting *)

Lemma filter_fresh (i : string) (l : list Timeslots.TimeSlot) :
  (forall s, In s l -> Timeslots.id s <> i) ->
  filter (TimeslotsUi.otherId i) l = l.
Proof.
  induction l as [|x l IH]; intros H; [reflexivity|].
  cbn [filter]. unfold TimeslotsUi.otherId at 1.
  assert (Hx : String.eqb (Timeslots.id x) i = false).
  { apply String.eqb_neq. apply H. left. reflexivity. }
  rewrite Hx. cbn [negb]. f_equal. apply IH.
  intros s Hs. apply H. right. exact Hs.
Qed.

Lemma delete_special_pool (i : string) (groups : list Timeslots.SpecialSlot) :
  flat_map Timeslots.slots
    (filter (fun sp => 0 <? Z.of_nat (List.length (Timeslots.slots sp)))
       (map (fun sp =>
               Timeslots.mkSpecialSlot (Timeslots.sid sp) (Timeslots.date sp)
                 (filter (TimeslotsUi.otherId i) (Timeslots.slots sp)))
            groups))
  = filter (TimeslotsUi.otherId i) (flat_map Timeslots.slots groups).
Proof.
  induction groups as [|g groups IH]; [reflexivity|].
  cbn [map filter flat_map Timeslots.slots]. rewrite filter_app, <- IH.
  destruct (filter (TimeslotsUi.otherId i) (Timeslots.slots g)) as [|x kept];
    reflexivity.
Qed.

Lemma deleteNow_pool (i : string) (st : Timeslots.State) :
  Timeslots.slotsToCheck (TimeslotsUi.deleteNow i st)
  = filter (TimeslotsUi.otherId i) (Timeslots.slotsToCheck st).
Proof.
  unfold TimeslotsUi.deleteNow, TimeslotsUi.deleteOnClick, Timeslots.slotsToCheck.
  destruct (Timeslots.activeTab st) eqn:Htab; cbn; rewrite Htab.
  - reflexivity.
  - apply delete_special_pool.
Qed.


Lemma saved_pool_add (clock : Timeslots.Clock) (st : Timeslots.State) :
  Timeslots.timeSlotSchema (Timeslots.formData st) = [] ->
  Timeslots.isEditing st = false \/ Timeslots.selectedSlot st = None ->
  exists before after,
    Timeslots.slotsToCheck st = (before ++ after)%list
    /\ Timeslots.slotsToCheck (fst (Timeslots.handleSave clock st))
       = (before
          ++ Timeslots.withId (Timeslots.formData st)
               (Js.toString (Timeslots.now1 clock)) :: after)%list.
Proof.
  intros Hok Hadd.
  assert (Hcase :
    match Timeslots.isEditing st, Timeslots.selectedSlot st with
    | true, Some _ => False
    | _, _ => True
    end).
  { destruct Hadd as [-> | ->]; [exact I|].
    destruct (Timeslots.isEditing st); exact I. }
  unfold Timeslots.handleSave, Timeslots.slotsToCheck.
  rewrite (validateForm_ok st Hok). cbn [negb fst].
  destruct (Timeslots.activeTab st) eqn:Htab.
  - exists (Timeslots.regularSlots st), [].
    rewrite app_nil_r. split; [reflexivity|].
    destruct (Timeslots.isEditing st), (Timeslots.selectedSlot st);
      try contradiction; cbn; rewrite Htab; reflexivity.
  - destruct (Timeslots.specialSlots st) as [|g rest] eqn:Hsp.
    + exists [], []. split; [reflexivity|].
      destruct (Timeslots.isEditing st), (Timeslots.selectedSlot st);
        try contradiction; cbn; rewrite Htab; reflexivity.
    + exists (Timeslots.slots g), (flat_map Timeslots.slots rest).
      split; [reflexivity|].
      destruct (Timeslots.isEditing st), (Timeslots.selectedSlot st);
        try contradiction; cbn; rewrite Htab; cbn;
        rewrite <- app_assoc; reflexivity.
Qed.

(** X5. Adding a slot and then deleting it by its new id gives back the
    pool of the active tab, provided no slot of the pool already had that
    id (a group created for the slot on an empty special list goes away
    with it). *)
Theorem add_then_delete (clock : Timeslots.Clock) (st : Timeslots.State) :
  Timeslots.timeSlotSchema (Timeslots.formData st) = [] ->
  Timeslots.isEditing st = false \/ Timeslots.selectedSlot st = None ->
  (forall s, In s (Timeslots.slotsToCheck st) ->
             Timeslots.id s <> Js.toString (Timeslots.now1 clock)) ->
  Timeslots.slotsToCheck
    (TimeslotsUi.deleteNow (Js.toString (Timeslots.now1 clock))
       (fst (Timeslots.handleSave clock st)))
  = Timeslots.slotsToCheck st.
Proof.
  intros Hok Hadd Hfresh.
  destruct (saved_pool_add clock st Hok Hadd) as (before & after & Hpool & Hsaved).
  rewrite deleteNow_pool, Hsaved, Hpool, filter_app. cbn [filter].
  unfold TimeslotsUi.otherId at 2. cbn [Timeslots.withId Timeslots.id].
  rewrite String.eqb_refl. cbn [negb].
  rewrite !filter_fresh; [reflexivity| |];
    intros s Hs; apply Hfresh; rewrite Hpool; apply in_or_app; auto.
Qed.

Lemma add_then_delete_witness :
  Timeslots.slotsToCheck
    (TimeslotsUi.deleteNow "1747735872000"
       (fst (Timeslots.handleSave Examples.clock0 Examples.specialForm)))
  = [Timeslots.mkTimeSlot "1-1" "10:00" "15:00" true].
Proof.
  apply (add_then_delete Examples.clock0 Examples.specialForm).
  - reflexivity.
  - left. reflexivity.
  - intros s [<-|[]]. discriminate.
Defined.

(** X6. The deletion callback writes the list it captured when the delete
    button was clicked.  On the regular tab, a slot saved between the click
    and the confirmation is dropped again: the list becomes the captured
    list without the deleted id. *)
Theorem delete_confirm_is_stale
  (clock : Timeslots.Clock) (i : string) (st : Timeslots.State) :
  Timeslots.activeTab st = Timeslots.regular ->
  Timeslots.timeSlotSchema (Timeslots.formData st) = [] ->
  Timeslots.isEditing st = false \/ Timeslots.selectedSlot st = None ->
  let newSlot :=
    Timeslots.withId (Timeslots.formData st) (Js.toString (Timeslots.now1 clock)) in
  let saved := fst (Timeslots.handleSave clock st) in
  let final := fst (TimeslotsUi.deleteOnClick i st saved) in
  In newSlot (Timeslots.regularSlots saved)
  /\ Timeslots.regularSlots final
     = filter (TimeslotsUi.otherId i) (Timeslots.regularSlots st)
  /\ (~ In newSlot (Timeslots.regularSlots st) ->
      ~ In newSlot (Timeslots.regularSlots final)).
Proof.
  intros Htab Hok Hadd newSlot saved final.
  assert (Hfinal : Timeslots.regularSlots final
                   = filter (TimeslotsUi.otherId i) (Timeslots.regularSlots st)).
  { subst final. unfold TimeslotsUi.deleteOnClick. rewrite Htab. reflexivity. }
  split; [|split; [exact Hfinal|]].
  - destruct (saved_pool_add clock st Hok Hadd) as (before & after & _ & Hsaved).
    assert (Htab' : Timeslots.activeTab saved = Timeslots.regular).
    { subst saved. unfold Timeslots.handleSave.
      rewrite (validateForm_ok st Hok). cbn [negb fst].
      destruct (Timeslots.isEditing st), (Timeslots.selectedSlot st);
        rewrite Htab; exact Htab. }
    unfold Timeslots.slotsToCheck in Hsaved. fold saved in Hsaved.
    rewrite Htab' in Hsaved. rewrite Hsaved.
    apply in_or_app. right. left. reflexivity.
  - intros Hnew Hin. rewrite Hfinal in Hin. apply filter_In in Hin. tauto.
Qed.

Lemma delete_confirm_is_stale_witness :
  Timeslots.regularSlots
    (fst (TimeslotsUi.deleteOnClick "2" Examples.overlappingForm
            (fst (Timeslots.handleSave Examples.clock0 Examples.overlappingForm))))
  = [Timeslots.mkTimeSlot "1" "09:00" "12:00" true].
Proof.
  destruct (delete_confirm_is_stale Examples.clock0 "2" Examples.overlappingForm)
    as (_ & Hfinal & _).
  - reflexivity.
  - reflexivity.
  - left. reflexivity.
  - exact Hfinal.
Defined.


(** ** Dragging *)

Lemma allDefined_map_Some {A : Type} (l : list A) :
  TimeslotsUi.allDefined (map Some l) = Some l.
Proof.
  induction l as [|x l IH]; [reflexivity|]. cbn. now rewrite IH.
Qed.

Lemma allDefined_undefined {A : Type} (l1 l2 : list (option A)) :
  TimeslotsUi.allDefined (l1 ++ None :: l2) = None.
Proof.
  induction l1 as [|[x|] l1 IH]; cbn; [reflexivity| |reflexivity].
  now rewrite IH.
Qed.

Lemma nth_error_cut {A : Type} (l : list A) (n : nat) (x : A) :
  nth_error l n = Some x ->
  l = (firstn n l ++ x :: skipn (S n) l)%list.
Proof.
  revert n. induction l as [|y l IH]; intros [|n] H; try discriminate.
  - cbn in H. injection H as ->. reflexivity.
  - cbn in H. cbn. f_equal. now apply IH.
Qed.

(** Moving within range: the array holds the same elements, the moved one
    at the destination (at the end when the destination is past it). *)
Lemma reorder_in_range {A : Type} (src dst : nat) (items : list A) (x : A) :
  nth_error items src = Some x ->
  exists moved,
    TimeslotsUi.allDefined (TimeslotsUi.reorder src dst items) = Some moved
    /\ Permutation items moved
    /\ nth_error moved (Nat.min dst (List.length items - 1)) = Some x.
Proof.
  intros Hx. unfold TimeslotsUi.reorder, TimeslotsUi.spliceOut, TimeslotsUi.spliceIn.
  rewrite Hx.
  set (rest := (firstn src items ++ skipn (S src) items)%list).
  exists (firstn dst rest ++ x :: skipn dst rest)%list.
  assert (Hsplit : items = (firstn src items ++ x :: skipn (S src) items)%list).
  { now apply nth_error_cut. }
  assert (Hlen : List.length rest = (List.length items - 1)%nat).
  { assert (Hsrc : (src < List.length items)%nat)
      by (apply nth_error_Some; congruence).
    subst rest. rewrite length_app, length_firstn, length_skipn. lia. }
  split; [|split].
  - rewrite firstn_map, skipn_map.
    change (Some x :: map Some (skipn dst rest))
      with (map Some (x :: skipn dst rest)).
    rewrite <- map_app. apply allDefined_map_Some.
  - rewrite Hsplit at 1.
    apply Permutation_trans with (x :: rest).
    + subst rest. symmetry. apply Permutation_middle.
    + rewrite <- (firstn_skipn dst rest) at 1. apply Permutation_middle.
  - rewrite <- Hlen, <- length_firstn.
    rewrite nth_error_app2 by lia. rewrite Nat.sub_diag. reflexivity.
Qed.

Lemma reorder_out_of_range {A : Type} (src dst : nat) (items : list A) :
  (List.length items <= src)%nat ->
  TimeslotsUi.allDefined (TimeslotsUi.reorder src dst items) = None.
Proof.
  intros Hlen. unfold TimeslotsUi.reorder, TimeslotsUi.spliceOut, TimeslotsUi.spliceIn.
  apply nth_error_None in Hlen. rewrite Hlen. apply allDefined_undefined.
Qed.

(** X7. A drop outside the list changes nothing.  A drop at a destination,
    with the source index inside the list of the active tab, reorders that
    list: the same elements, the dragged one at the destination (at the end
    when the destination is past it); the other list is untouched.  On the
    special tab it is the groups that are reordered. *)
Theorem handleDragEnd_reorders
  (result : TimeslotsUi.DropResult) (st : Timeslots.State) :
  (TimeslotsUi.destination result = None ->
   TimeslotsUi.handleDragEnd result st = Some st)
  /\ (forall dst slot,
        TimeslotsUi.destination result = Some dst ->
        Timeslots.activeTab st = Timeslots.regular ->
        nth_error (Timeslots.regularSlots st) (TimeslotsUi.source result) = Some slot ->
        exists st',
          TimeslotsUi.handleDragEnd result st = Some st'
          /\ Permutation (Timeslots.regularSlots st) (Timeslots.regularSlots st')
          /\ nth_error (Timeslots.regularSlots st')
               (Nat.min dst (List.length (Timeslots.regularSlots st) - 1))
             = Some slot
          /\ Timeslots.specialSlots st' = Timeslots.specialSlots st)
  /\ (forall dst group,
        TimeslotsUi.destination result = Some dst ->
        Timeslots.activeTab st = Timeslots.special ->
        nth_error (Timeslots.specialSlots st) (TimeslotsUi.source result) = Some group ->
        exists st',
          TimeslotsUi.handleDragEnd result st = Some st'
          /\ Permutation (Timeslots.specialSlots st) (Timeslots.specialSlots st')
          /\ nth_error (Timeslots.specialSlots st')
               (Nat.min dst (List.length (Timeslots.specialSlots st) - 1))
             = Some group
          /\ Timeslots.regularSlots st' = Timeslots.regularSlots st).
Proof.
  unfold TimeslotsUi.handleDragEnd. split; [|split].
  - intros ->. reflexivity.
  - intros dst slot -> -> Hx.
    destruct (reorder_in_range (TimeslotsUi.source result) dst _ slot Hx)
      as (moved & -> & Hperm & Hnth).
    eexists. split; [reflexivity|]. cbn. auto.
  - intros dst group -> -> Hx.
    destruct (reorder_in_range (TimeslotsUi.source result) dst _ group Hx)
      as (moved & -> & Hperm & Hnth).
    eexists. split; [reflexivity|]. cbn. auto.
Qed.

Lemma handleDragEnd_reorders_witness :
  exists st',
    TimeslotsUi.handleDragEnd (TimeslotsUi.mkDropResult 0 (Some 1%nat))
      Timeslots.initialState = Some st'
    /\ nth_error (Timeslots.regularSlots st') 1
       = Some (Timeslots.mkTimeSlot "1" "09:00" "12:00" true).
Proof.
  destruct (handleDragEnd_reorders (TimeslotsUi.mkDropResult 0 (Some 1%nat))
              Timeslots.initialState) as (_ & Hreg & _).
  destruct (Hreg 1%nat (Timeslots.mkTimeSlot "1" "09:00" "12:00" true)
                 eq_refl eq_refl eq_refl) as (st' & Hdrag & _ & Hnth & _).
  exists st'. split; [exact Hdrag | exact Hnth].
Defined.

(** X8. A drop whose source index is past the end of the list of the
    active tab moves nothing and inserts [undefined]: the list is lost.  On
    the special tab the index of a slot inside its group is used as an index
    into the groups, so this happens whenever the dragged slot's index is at
    least the number of groups. *)
Theorem handleDragEnd_out_of_range
  (result : TimeslotsUi.DropResult) (st : Timeslots.State) (dst : nat) :
  TimeslotsUi.destination result = Some dst ->
  (match Timeslots.activeTab st with
   | Timeslots.regular => List.length (Timeslots.regularSlots st)
   | Timeslots.special => List.length (Timeslots.specialSlots st)
   end <= TimeslotsUi.source result)%nat ->
  TimeslotsUi.handleDragEnd result st = None.
Proof.
  intros Hdst Hlen. unfold TimeslotsUi.handleDragEnd. rewrite Hdst.
  destruct (Timeslots.activeTab st); now rewrite reorder_out_of_range.
Qed.

Lemma handleDragEnd_out_of_range_witness :
  TimeslotsUi.handleDragEnd (TimeslotsUi.mkDropResult 1 (Some 0%nat))
    MoreExamples.twoInOneGroup = None.
Proof.
  apply (handleDragEnd_out_of_range (TimeslotsUi.mkDropResult 1 (Some 0%nat))
           MoreExamples.twoInOneGroup 0%nat).
  - reflexivity.
  - cbn. lia.
Defined.

(** ** An invariant of the page *)

Lemma allValid_spec (st : Timeslots.State) :
  TimeslotsUi.allValid st = true
  <-> TimeslotsUi.listsValid (Timeslots.regularSlots st) (Timeslots.specialSlots st).
Proof.
  unfold TimeslotsUi.allValid, TimeslotsUi.listsValid.
  rewrite andb_true_iff, !forallb_forall. split.
  - intros [Hr Hs]. split; [exact Hr|].
    intros sp s Hsp Hin. specialize (Hs sp Hsp).
    rewrite forallb_forall in Hs. now apply Hs.
  - intros [Hr Hs]. split; [exact Hr|].
    intros sp Hsp. apply forallb_forall. intros s Hin. now apply (Hs sp).
Qed.

Lemma storedValid_form (i : string) (f : Timeslots.FormData) :
  Timeslots.timeSlotSchema f = [] ->
  TimeslotsUi.storedValid (Timeslots.withId f i) = true.
Proof.
  intros H. destruct f as [s e b]. unfold TimeslotsUi.storedValid.
  cbn [Timeslots.withId Timeslots.start Timeslots.end_ Timeslots.enabled
         Timeslots.fstart Timeslots.fend Timeslots.fenabled].
  now rewrite H.
Qed.

Lemma editSlots_valid (sel : Timeslots.TimeSlot) (f : Timeslots.FormData)
  (l : list Timeslots.TimeSlot) (s : Timeslots.TimeSlot) :
  Timeslots.timeSlotSchema f = [] ->
  (forall x, In x l -> TimeslotsUi.storedValid x = true) ->
  In s (Timeslots.editSlots sel f l) -> TimeslotsUi.storedValid s = true.
Proof.
  intros Hf Hl Hin. unfold Timeslots.editSlots in Hin.
  apply in_map_iff in Hin. destruct Hin as (x & Hs & Hx).
  destruct (String.eqb (Timeslots.id x) (Timeslots.id sel)).
  - subst s. apply (storedValid_form (Timeslots.id x) f Hf).
  - subst s. now apply Hl.
Qed.

(** Membership in the lists a save builds, reduced to membership in the
    lists it started from. *)
Ltac split_membership :=
  repeat first
    [ progress cbn [Timeslots.slots] in *
    | match goal with
      | H : In _ (map _ _) |- _ =>
          apply in_map_iff in H; destruct H as (? & <- & ?)
      | H : In _ (_ ++ _)%list |- _ => apply in_app_or in H; destruct H as [H|H]
      | H : In _ (_ :: _) |- _ => destruct H as [<-|H]
      | H : In _ [] |- _ => destruct H
      | H : _ \/ _ |- _ => destruct H as [H|H]
      | H : False |- _ => destruct H
      | H : _ = ?x |- _ => is_var x; subst x
      end ].

Lemma handleSave_valid_lists (clock : Timeslots.Clock) (st : Timeslots.State) :
  TimeslotsUi.listsValid (Timeslots.regularSlots st) (Timeslots.specialSlots st) ->
  TimeslotsUi.listsValid (Timeslots.regularSlots (fst (Timeslots.handleSave clock st)))
             (Timeslots.specialSlots (fst (Timeslots.handleSave clock st))).
Proof.
  unfold TimeslotsUi.listsValid. intros [Hr Hs].
  destruct (Timeslots.timeSlotSchema (Timeslots.formData st)) as [|i rest] eqn:Hok.
  - pose proof (storedValid_form (Js.toString (Timeslots.now1 clock))
                  (Timeslots.formData st) Hok) as Hnew.
    pose proof (fun sel l s =>
                  editSlots_valid sel (Timeslots.formData st) l s Hok) as Hedit.
    unfold Timeslots.handleSave. rewrite (validateForm_ok st Hok).
    cbn [negb fst].
    destruct (Timeslots.specialSlots st) as [|g groups] eqn:Hsp;
      destruct (Timeslots.isEditing st), (Timeslots.selectedSlot st) as [sel|],
        (Timeslots.activeTab st);
      cbn; rewrite ?Hsp; split; intros; split_membership; eauto;
      try (eapply Hedit; [|eassumption]; eauto);
      eauto using in_eq, in_cons.
  - unfold Timeslots.handleSave, Timeslots.validateForm. rewrite Hok.
    cbn. split; assumption.
Qed.

Lemma deleteNow_valid_lists (i : string) (st : Timeslots.State) :
  TimeslotsUi.listsValid (Timeslots.regularSlots st) (Timeslots.specialSlots st) ->
  TimeslotsUi.listsValid (Timeslots.regularSlots (TimeslotsUi.deleteNow i st))
                         (Timeslots.specialSlots (TimeslotsUi.deleteNow i st)).
Proof.
  unfold TimeslotsUi.listsValid, TimeslotsUi.deleteNow, TimeslotsUi.deleteOnClick.
  intros [Hr Hs]. destruct (Timeslots.activeTab st); cbn; split; intros.
  - match goal with H : In _ (filter _ _) |- _ => apply filter_In in H end.
    apply Hr. tauto.
  - eauto.
  - eauto.
  - match goal with H : In _ (filter _ _) |- _ =>
      apply filter_In in H; destruct H as [H _] end.
    split_membership.
    match goal with H : In _ (filter _ _) |- _ =>
      apply filter_In in H; destruct H as [H _] end.
    eauto.
Qed.

Lemma handleDragEnd_valid_lists
  (result : TimeslotsUi.DropResult) (st st' : Timeslots.State) :
  TimeslotsUi.handleDragEnd result st = Some st' ->
  TimeslotsUi.listsValid (Timeslots.regularSlots st) (Timeslots.specialSlots st) ->
  TimeslotsUi.listsValid (Timeslots.regularSlots st') (Timeslots.specialSlots st').
Proof.
  unfold TimeslotsUi.handleDragEnd, TimeslotsUi.listsValid.
  intros Hdrag [Hr Hs].
  destruct (TimeslotsUi.destination result) as [dst|];
    [|injection Hdrag as <-; auto].
  destruct (Timeslots.activeTab st).
  - destruct (nth_error (Timeslots.regularSlots st) (TimeslotsUi.source result))
      as [x|] eqn:Hx.
    + destruct (reorder_in_range _ dst _ x Hx) as (moved & Hm & Hperm & _).
      rewrite Hm in Hdrag. injection Hdrag as <-. cbn. split; [|exact Hs].
      intros s Hin. apply Hr. apply (Permutation_in s (Permutation_sym Hperm) Hin).
    + apply nth_error_None in Hx.
      rewrite (reorder_out_of_range _ dst _ Hx) in Hdrag. discriminate.
  - destruct (nth_error (Timeslots.specialSlots st) (TimeslotsUi.source result))
      as [x|] eqn:Hx.
    + destruct (reorder_in_range _ dst _ x Hx) as (moved & Hm & Hperm & _).
      rewrite Hm in Hdrag. injection Hdrag as <-. cbn. split; [exact Hr|].
      intros sp s Hsp Hin. apply (Hs sp); [|exact Hin].
      apply (Permutation_in sp (Permutation_sym Hperm) Hsp).
    + apply nth_error_None in Hx.
      rewrite (reorder_out_of_range _ dst _ Hx) in Hdrag. discriminate.
Qed.

Lemma step_valid (ev : TimeslotsUi.Event) (st st' : Timeslots.State) :
  TimeslotsUi.step ev st = Some st' ->
  TimeslotsUi.allValid st = true -> TimeslotsUi.allValid st' = true.
Proof.
  rewrite !allValid_spec. destruct ev; cbn [TimeslotsUi.step]; intros Hstep Hv;
    try (injection Hstep as <-; exact Hv).
  - injection Hstep as <-. now apply handleSave_valid_lists.
  - injection Hstep as <-. now apply deleteNow_valid_lists.
  - now apply (handleDragEnd_valid_lists result st st').
Qed.

Lemma handleDragEnd_lost (result : TimeslotsUi.DropResult) (st : Timeslots.State) :
  TimeslotsUi.handleDragEnd result st = None ->
  exists dst,
    TimeslotsUi.destination result = Some dst
    /\ (match Timeslots.activeTab st with
        | Timeslots.regular => List.length (Timeslots.regularSlots st)
        | Timeslots.special => List.length (Timeslots.specialSlots st)
        end <= TimeslotsUi.source result)%nat.
Proof.
  unfold TimeslotsUi.handleDragEnd.
  destruct (TimeslotsUi.destination result) as [dst|]; [|discriminate].
  intros Hnone. exists dst. split; [reflexivity|].
  destruct (Timeslots.activeTab st).
  - destruct (nth_error (Timeslots.regularSlots st) (TimeslotsUi.source result))
      as [x|] eqn:Hx; [|now apply nth_error_None].
    destruct (reorder_in_range _ dst _ x Hx) as (moved & Hm & _).
    rewrite Hm in Hnone. discriminate.
  - destruct (nth_error (Timeslots.specialSlots st) (TimeslotsUi.source result))
      as [x|] eqn:Hx; [|now apply nth_error_None].
    destruct (reorder_in_range _ dst _ x Hx) as (moved & Hm & _).
    rewrite Hm in Hnone. discriminate.
Qed.

(** X9. Every slot the page stores has times that pass the schema, until
    a drag loses the list.  From a state whose stored slots all match the
    24-hour pattern with the end after the start, every sequence of saves,
    deletions, drags, clicks, tab switches and typing ends in one of two
    ways.  Either every stored slot still passes the schema; or the
    sequence holds a drag whose source index is past the end of the list of
    the tab then active, up to which every stored slot passed the schema and
    at which [undefined] is put into the list.  The page starts in a state
    whose slots pass the schema. *)
Theorem page_keeps_slots_valid
  (evs : list TimeslotsUi.Event) (st : Timeslots.State) :
  TimeslotsUi.allValid st = true ->
  match TimeslotsUi.run evs st with
  | Some st' => TimeslotsUi.allValid st' = true
  | None =>
      exists before result after st1 dst,
        evs = (before ++ TimeslotsUi.Drag result :: after)%list
        /\ TimeslotsUi.run before st = Some st1
        /\ TimeslotsUi.allValid st1 = true
        /\ TimeslotsUi.destination result = Some dst
        /\ (match Timeslots.activeTab st1 with
            | Timeslots.regular => List.length (Timeslots.regularSlots st1)
            | Timeslots.special => List.length (Timeslots.specialSlots st1)
            end <= TimeslotsUi.source result)%nat
        /\ TimeslotsUi.handleDragEnd result st1 = None
  end
  /\ TimeslotsUi.allValid Timeslots.initialState = true.
Proof.
  intros Hv. split; [|reflexivity].
  revert st Hv. induction evs as [|ev evs IH]; intros st Hv; [exact Hv|].
  cbn [TimeslotsUi.run].
  destruct (TimeslotsUi.step ev st) as [st1|] eqn:Hstep.
  - pose proof (step_valid ev st st1 Hstep Hv) as Hv1.
    specialize (IH st1 Hv1).
    destruct (TimeslotsUi.run evs st1) as [st'|]; [exact IH|].
    destruct IH as (before & result & after & st2 & dst
                    & Hevs & Hrun & Hv2 & Hdst & Hlen & Hlost).
    exists (ev :: before), result, after, st2, dst.
    split; [now rewrite Hevs|]. split; [|auto].
    cbn [TimeslotsUi.run]. now rewrite Hstep.
  - destruct ev; cbn [TimeslotsUi.step] in Hstep; try discriminate.
    destruct (handleDragEnd_lost result st Hstep) as (dst & Hdst & Hlen).
    exists [], result, evs, st, dst. auto 10.
Qed.

Lemma page_keeps_slots_valid_witness :
  (exists st',
     TimeslotsUi.run MoreExamples.session Timeslots.initialState = Some st'
     /\ TimeslotsUi.allValid st' = true)
  /\ (TimeslotsUi.run MoreExamples.lostByDrag Timeslots.initialState = None
      /\ exists before result after st1 dst,
           MoreExamples.lostByDrag
           = (before ++ TimeslotsUi.Drag result :: after)%list
           /\ TimeslotsUi.run before Timeslots.initialState = Some st1
           /\ TimeslotsUi.allValid st1 = true
           /\ TimeslotsUi.destination result = Some dst
           /\ (match Timeslots.activeTab st1 with
               | Timeslots.regular => List.length (Timeslots.regularSlots st1)
               | Timeslots.special => List.length (Timeslots.specialSlots st1)
               end <= TimeslotsUi.source result)%nat
           /\ TimeslotsUi.handleDragEnd result st1 = None).
Proof.
  split.
  - destruct (page_keeps_slots_valid MoreExamples.session Timeslots.initialState
                eq_refl) as [Hrun _].
    destruct (TimeslotsUi.run MoreExamples.session Timeslots.initialState)
      as [st'|] eqn:Hsession; [|discriminate Hsession].
    exists st'. split; [reflexivity|exact Hrun].
  - split; [reflexivity|].
    destruct (page_keeps_slots_valid MoreExamples.lostByDrag Timeslots.initialState
                eq_refl) as [Hrun _].
    exact Hrun.
Defined.

(** ** Editing *)

Lemma editSlots_ids (sel : Timeslots.TimeSlot) (f : Timeslots.FormData)
  (l : list Timeslots.TimeSlot) :
  map Timeslots.id (Timeslots.editSlots sel f l) = map Timeslots.id l.
Proof.
  unfold Timeslots.editSlots. rewrite map_map. apply map_ext.
  intros slot. destruct (String.eqb (Timeslots.id slot) (Timeslots.id sel));
    reflexivity.
Qed.

Lemma editSlots_absent (sel : Timeslots.TimeSlot) (f : Timeslots.FormData)
  (l : list Timeslots.TimeSlot) :
  (forall s, In s l -> Timeslots.id s <> Timeslots.id sel) ->
  Timeslots.editSlots sel f l = l.
Proof.
  intros H. unfold Timeslots.editSlots. rewrite <- (map_id l) at 2.
  apply map_ext_in. intros slot Hin.
  apply H, String.eqb_neq in Hin. now rewrite Hin.
Qed.

Lemma edit_groups_ids (sel : Timeslots.TimeSlot) (f : Timeslots.FormData)
  (groups : list Timeslots.SpecialSlot) :
  map Timeslots.id
    (flat_map Timeslots.slots
       (map (fun sp =>
               Timeslots.mkSpecialSlot (Timeslots.sid sp) (Timeslots.date sp)
                 (Timeslots.editSlots sel f (Timeslots.slots sp)))
            groups))
  = map Timeslots.id (flat_map Timeslots.slots groups).
Proof.
  induction groups as [|g groups IH]; [reflexivity|].
  cbn [map flat_map Timeslots.slots]. rewrite !map_app, IH, editSlots_ids.
  reflexivity.
Qed.

Lemma handleSave_edit_result (clock : Timeslots.Clock) (st : Timeslots.State)
  (sel : Timeslots.TimeSlot) :
  Timeslots.timeSlotSchema (Timeslots.formData st) = [] ->
  Timeslots.isEditing st = true -> Timeslots.selectedSlot st = Some sel ->
  Timeslots.regularSlots (fst (Timeslots.handleSave clock st))
  = match Timeslots.activeTab st with
    | Timeslots.regular =>
        Timeslots.editSlots sel (Timeslots.formData st) (Timeslots.regularSlots st)
    | Timeslots.special => Timeslots.regularSlots st
    end
  /\ Timeslots.specialSlots (fst (Timeslots.handleSave clock st))
     = match Timeslots.activeTab st with
       | Timeslots.regular => Timeslots.specialSlots st
       | Timeslots.special =>
           map (fun sp =>
                  Timeslots.mkSpecialSlot (Timeslots.sid sp) (Timeslots.date sp)
                    (Timeslots.editSlots sel (Timeslots.formData st)
                                         (Timeslots.slots sp)))
               (Timeslots.specialSlots st)
       end
  /\ Timeslots.activeTab (fst (Timeslots.handleSave clock st))
     = Timeslots.activeTab st
  /\ snd (Timeslots.handleSave clock st) = [Timeslots.ToastSuccess "时段已保存"].
Proof.
  intros Hok He Hs. unfold Timeslots.handleSave.
  rewrite (validateForm_ok st Hok), He, Hs. cbn [negb fst snd].
  destruct (Timeslots.activeTab st) eqn:Htab; cbn; rewrite ?Htab; auto.
Qed.

(** X10. Saving an edit never adds or removes a slot and never changes an
    id: the ids of the pool of the active tab, in order, are as before, and
    so are the ids and dates of the special groups.  Afterwards every slot
    of the pool with the selected id carries the times and the flag of the
    form. *)
Theorem handleSave_edit_keeps_ids
  (clock : Timeslots.Clock) (st : Timeslots.State) (sel : Timeslots.TimeSlot) :
  Timeslots.timeSlotSchema (Timeslots.formData st) = [] ->
  Timeslots.isEditing st = true -> Timeslots.selectedSlot st = Some sel ->
  let st' := fst (Timeslots.handleSave clock st) in
  map Timeslots.id (Timeslots.slotsToCheck st')
  = map Timeslots.id (Timeslots.slotsToCheck st)
  /\ map Timeslots.sid (Timeslots.specialSlots st')
     = map Timeslots.sid (Timeslots.specialSlots st)
  /\ map Timeslots.date (Timeslots.specialSlots st')
     = map Timeslots.date (Timeslots.specialSlots st)
  /\ (forall s, In s (Timeslots.slotsToCheck st') ->
                Timeslots.id s = Timeslots.id sel ->
                Timeslots.start s = Timeslots.fstart (Timeslots.formData st)
                /\ Timeslots.end_ s = Timeslots.fend (Timeslots.formData st)
                /\ Timeslots.enabled s = Timeslots.fenabled (Timeslots.formData st)).
Proof.
  intros Hok He Hs st'.
  destruct (handleSave_edit_result clock st sel Hok He Hs)
    as (Hreg & Hspec & Htab & _).
  fold st' in Hreg, Hspec, Htab. unfold Timeslots.slotsToCheck.
  rewrite Htab, Hreg, Hspec.
  assert (Hedited : forall l s,
             In s (Timeslots.editSlots sel (Timeslots.formData st) l) ->
             Timeslots.id s = Timeslots.id sel ->
             Timeslots.start s = Timeslots.fstart (Timeslots.formData st)
             /\ Timeslots.end_ s = Timeslots.fend (Timeslots.formData st)
             /\ Timeslots.enabled s = Timeslots.fenabled (Timeslots.formData st)).
  { intros l s Hin Hid. unfold Timeslots.editSlots in Hin.
    apply in_map_iff in Hin. destruct Hin as (x & Hx & _).
    destruct (String.eqb (Timeslots.id x) (Timeslots.id sel)) eqn:Hxid.
    - subst s. auto.
    - subst s. apply String.eqb_neq in Hxid. contradiction. }
  destruct (Timeslots.activeTab st).
  - split; [apply editSlots_ids|]. split; [reflexivity|]. split; [reflexivity|].
    apply Hedited.
  - split; [|split; [|split]].
    + apply edit_groups_ids.
    + rewrite map_map. reflexivity.
    + rewrite map_map. reflexivity.
    + intros s Hin. apply in_flat_map in Hin. destruct Hin as (sp & Hsp & Hin).
      apply in_map_iff in Hsp. destruct Hsp as (g & <- & _).
      cbn [Timeslots.slots] in Hin. now apply (Hedited (Timeslots.slots g)).
Qed.

Lemma handleSave_edit_keeps_ids_witness :
  map Timeslots.id
    (Timeslots.slotsToCheck
       (fst (Timeslots.handleSave Examples.clock0 MoreExamples.editFirst)))
  = ["1"; "2"].
Proof.
  destruct (handleSave_edit_keeps_ids Examples.clock0 MoreExamples.editFirst
              (Timeslots.mkTimeSlot "1" "09:00" "12:00" true))
    as (Hids & _).
  - reflexivity.
  - reflexivity.
  - reflexivity.
  - exact Hids.
Defined.

(** X11. An edit is written only to the list of the active tab.  When no
    slot of that list has the selected id (a slot was selected and the
    other tab opened), a save that passes the schema changes neither list
    and still shows the success toast. *)
Theorem handleSave_edit_lost
  (clock : Timeslots.Clock) (st : Timeslots.State) (sel : Timeslots.TimeSlot) :
  Timeslots.timeSlotSchema (Timeslots.formData st) = [] ->
  Timeslots.isEditing st = true -> Timeslots.selectedSlot st = Some sel ->
  (forall s, In s (Timeslots.slotsToCheck st) -> Timeslots.id s <> Timeslots.id sel) ->
  Timeslots.regularSlots (fst (Timeslots.handleSave clock st))
  = Timeslots.regularSlots st
  /\ Timeslots.specialSlots (fst (Timeslots.handleSave clock st))
     = Timeslots.specialSlots st
  /\ snd (Timeslots.handleSave clock st) = [Timeslots.ToastSuccess "时段已保存"].
Proof.
  intros Hok He Hs Habsent.
  destruct (handleSave_edit_result clock st sel Hok He Hs)
    as (Hreg & Hspec & _ & Htoast).
  rewrite Hreg, Hspec. unfold Timeslots.slotsToCheck in Habsent.
  destruct (Timeslots.activeTab st).
  - split; [|split; [reflexivity|exact Htoast]].
    now apply editSlots_absent.
  - split; [reflexivity|]. split; [|exact Htoast].
    rewrite <- (map_id (Timeslots.specialSlots st)) at 2.
    apply map_ext_in. intros g Hg.
    rewrite editSlots_absent; [destruct g; reflexivity|].
    intros s Hin. apply Habsent. apply in_flat_map. exists g. auto.
Qed.

Lemma handleSave_edit_lost_witness :
  Timeslots.regularSlots
    (fst (Timeslots.handleSave Examples.clock0 MoreExamples.editOnOtherTab))
  = Timeslots.mockRegularSlots
  /\ Timeslots.specialSlots
       (fst (Timeslots.handleSave Examples.clock0 MoreExamples.editOnOtherTab))
     = Timeslots.mockSpecialSlots
  /\ snd (Timeslots.handleSave Examples.clock0 MoreExamples.editOnOtherTab)
     = [Timeslots.ToastSuccess "时段已保存"].
Proof.
  apply (handleSave_edit_lost Examples.clock0 MoreExamples.editOnOtherTab
           (Timeslots.mkTimeSlot "1" "09:00" "12:00" true)).
  - reflexivity.
  - reflexivity.
  - reflexivity.
  - intros s [<-|[]]. discriminate.
Defined.

(* ================================================================== *)
(** * Further properties of the booking page *)

(** X12. The phone check accepts exactly the strings of eleven characters
    made of a 1, a digit from 3 to 9 and nine more digits. *)
Theorem phonePattern_shape (s : string) :
  Regex.test BookingUi.phonePattern s = BookingUi.phoneCheck s.
Proof.
  unfold Regex.test, BookingUi.phonePattern, BookingUi.digit, Regex.range,
    Regex.lit, BookingUi.phoneCheck, TimeSpec.between.
  destruct s as [|a [|b [|c1 [|c2 [|c3 [|c4 [|c5 [|c6 [|c7 [|c8 [|c9 [|c10 s]]]]]]]]]]]];
    cbn [Regex.matchk Regex.at_end String.length list_ascii_of_string forallb Nat.eqb];
    codes; btauto.
Qed.

(** ** Typing into the form *)

Lemma get_assign (k k' v : string) (o : Js.record) :
  JsRecord.get k (Js.assign k' v o)
  = if String.eqb k' k then Some v else JsRecord.get k o.
Proof.
  induction o as [|[k0 v0] o IH]; cbn [Js.assign JsRecord.get].
  - destruct (String.eqb k' k); reflexivity.
  - destruct (String.eqb_spec k0 k') as [->|Hne]; cbn [JsRecord.get].
    + destruct (String.eqb k' k); reflexivity.
    + rewrite IH. destruct (String.eqb_spec k0 k) as [->|Hne2]; [|reflexivity].
      apply String.eqb_neq in Hne. rewrite String.eqb_sym in Hne.
      now rewrite Hne.
Qed.

(** X13. Typing into an input stores the value in that field of the form
    and leaves the other three fields, the selection and the loaded days
    alone.  The error shown for that field is cleared and the errors of the
    other fields stay as they are. *)
Theorem handleInputChange_clears_own_error
  (f : BookingUi.Field) (v : string) (st : Booking.State) :
  let st' := BookingUi.handleInputChange f v st in
  JsRecord.truthy (JsRecord.get (BookingUi.fieldKey f) (Booking.errors st')) = false
  /\ (forall k, k <> BookingUi.fieldKey f ->
        JsRecord.get k (Booking.errors st') = JsRecord.get k (Booking.errors st))
  /\ (forall g, g <> f ->
        JsRecord.get (BookingUi.fieldKey g) (Booking.errors st')
        = JsRecord.get (BookingUi.fieldKey g) (Booking.errors st))
  /\ Booking.selectedDate st' = Booking.selectedDate st
  /\ Booking.selectedSlot st' = Booking.selectedSlot st
  /\ Booking.availableSlots st' = Booking.availableSlots st.
Proof.
  cbv zeta. unfold BookingUi.handleInputChange. cbn [Booking.errors
    Booking.selectedDate Booking.selectedSlot Booking.availableSlots].
  assert (Hother : forall k, k <> BookingUi.fieldKey f ->
    JsRecord.get k
      (if JsRecord.truthy (JsRecord.get (BookingUi.fieldKey f) (Booking.errors st))
       then Js.assign (BookingUi.fieldKey f) EmptyString (Booking.errors st)
       else Booking.errors st)
    = JsRecord.get k (Booking.errors st)).
  { intros k Hk.
    destruct (JsRecord.truthy
                (JsRecord.get (BookingUi.fieldKey f) (Booking.errors st)));
      [|reflexivity].
    rewrite get_assign. apply not_eq_sym, String.eqb_neq in Hk. now rewrite Hk. }
  split; [|split; [exact Hother|split; [|auto]]].
  - destruct (JsRecord.truthy
                (JsRecord.get (BookingUi.fieldKey f) (Booking.errors st))) eqn:Ht;
      [|exact Ht].
    now rewrite get_assign, String.eqb_refl.
  - intros g Hg. apply Hother. destruct g, f; try discriminate; contradiction.
Qed.

Lemma handleInputChange_clears_own_error_witness :
  JsRecord.get "phone"
    (Booking.errors
       (BookingUi.handleInputChange BookingUi.FName "Li"
          (Booking.mkState
             (Booking.mkForm EmptyString EmptyString EmptyString EmptyString)
             [("name", BookingUi.msgName); ("phone", BookingUi.msgPhone)]
             None None [] false)))
  = Some BookingUi.msgPhone.
Proof.
  destruct (handleInputChange_clears_own_error BookingUi.FName "Li"
              (Booking.mkState
                 (Booking.mkForm EmptyString EmptyString EmptyString EmptyString)
                 [("name", BookingUi.msgName); ("phone", BookingUi.msgPhone)]
                 None None [] false))
    as (_ & Hother & _).
  rewrite (Hother "phone"); [reflexivity|discriminate].
Defined.

(** ** Submitting *)

Lemma formSchema_nil (isEmail : string -> bool) (f : Booking.Form) :
  BookingUi.formSchema isEmail f = []
  <-> 2 <= BookingUi.utf16Length (Booking.name f)
      /\ isEmail (Booking.email f) = true
      /\ BookingUi.phoneCheck (Booking.phone f) = true
      /\ 1 <= BookingUi.utf16Length (Booking.type f).
Proof.
  unfold BookingUi.formSchema, BookingUi.string_min, Zod.string_regex.
  rewrite phonePattern_shape.
  destruct (Z.ltb_spec (BookingUi.utf16Length (Booking.name f)) 2) as [Hn|Hn];
    destruct (isEmail (Booking.email f));
    destruct (BookingUi.phoneCheck (Booking.phone f));
    destruct (Z.ltb_spec (BookingUi.utf16Length (Booking.type f)) 1) as [Ht|Ht];
    cbn; split; intros Hx; try discriminate Hx;
    try (destruct Hx as (? & ? & ? & ?); try discriminate; lia);
    repeat split; auto.
Qed.

(** X14. Submitting succeeds, with the success toast and the navigation to
    the appointments page, exactly when the name has at least two UTF-16
    code units, the email passes the email check, the phone has the phone
    shape, a type is chosen, and a date and a slot are selected.  A
    submission never changes the form or the selection. *)
Theorem handleSubmit_succeeds_iff (isEmail : string -> bool) (st : Booking.State) :
  let r := BookingUi.handleSubmit isEmail st in
  let accepted :=
    2 <= BookingUi.utf16Length (Booking.name (Booking.formData st))
    /\ isEmail (Booking.email (Booking.formData st)) = true
    /\ BookingUi.phoneCheck (Booking.phone (Booking.formData st)) = true
    /\ 1 <= BookingUi.utf16Length (Booking.type (Booking.formData st))
    /\ JsRecord.truthy (Booking.selectedDate st) = true
    /\ JsRecord.truthy (Booking.selectedSlot st) = true in
  (BookingUi.navigatesTo r = Some "/my-appointments" <-> accepted)
  /\ (In (Timeslots.ToastSuccess "预约成功!") (BookingUi.toasts r) <-> accepted)
  /\ (BookingUi.navigatesTo r = None \/ BookingUi.navigatesTo r = Some "/my-appointments")
  /\ Booking.formData (BookingUi.after r) = Booking.formData st
  /\ Booking.selectedDate (BookingUi.after r) = Booking.selectedDate st
  /\ Booking.selectedSlot (BookingUi.after r) = Booking.selectedSlot st
  /\ Booking.availableSlots (BookingUi.after r) = Booking.availableSlots st.
Proof.
  cbv zeta. pose proof (formSchema_nil isEmail (Booking.formData st)) as Hnil.
  unfold BookingUi.handleSubmit, BookingUi.validateForm, BookingUi.noTime.
  destruct (BookingUi.formSchema isEmail (Booking.formData st)) as [|i rest].
  - destruct Hnil as [Hnil _]. specialize (Hnil eq_refl).
    destruct (JsRecord.truthy (Booking.selectedDate st));
      destruct (JsRecord.truthy (Booking.selectedSlot st)); cbn;
      intuition (auto; try discriminate; try congruence).
  - destruct Hnil as [_ Hnil]. cbn.
    assert (Hno : ~ (2 <= BookingUi.utf16Length (Booking.name (Booking.formData st))
                     /\ isEmail (Booking.email (Booking.formData st)) = true
                     /\ BookingUi.phoneCheck (Booking.phone (Booking.formData st)) = true
                     /\ 1 <= BookingUi.utf16Length (Booking.type (Booking.formData st)))).
    { intros Hacc. specialize (Hnil Hacc). discriminate Hnil. }
    intuition (auto; try discriminate; try congruence).
Qed.

Lemma handleSubmit_succeeds_iff_witness :
  BookingUi.navigatesTo
    (BookingUi.handleSubmit MoreExamples.hasAt
       (BookingUi.run MoreExamples.hasAt MoreExamples.booking
          (BookingUi.loaded MoreExamples.calendar)))
  = Some "/my-appointments".
Proof.
  destruct (handleSubmit_succeeds_iff MoreExamples.hasAt
              (BookingUi.run MoreExamples.hasAt MoreExamples.booking
                 (BookingUi.loaded MoreExamples.calendar)))
    as ([_ Hyes] & _).
  apply Hyes. vm_compute. repeat split; discriminate.
Defined.

(** ** What can be selected *)

Lemma handleSubmit_keeps (isEmail : string -> bool) (st : Booking.State) :
  Booking.selectedDate (BookingUi.after (BookingUi.handleSubmit isEmail st))
  = Booking.selectedDate st
  /\ Booking.selectedSlot (BookingUi.after (BookingUi.handleSubmit isEmail st))
     = Booking.selectedSlot st
  /\ Booking.availableSlots (BookingUi.after (BookingUi.handleSubmit isEmail st))
     = Booking.availableSlots st.
Proof.
  unfold BookingUi.handleSubmit, BookingUi.validateForm.
  destruct (BookingUi.formSchema isEmail (Booking.formData st));
    [destruct (BookingUi.noTime st)|]; cbn; auto.
Qed.

Lemma handleSubmit_needs_slot (isEmail : string -> bool) (st : Booking.State) :
  BookingUi.navigatesTo (BookingUi.handleSubmit isEmail st) <> None ->
  JsRecord.truthy (Booking.selectedDate st) = true
  /\ JsRecord.truthy (Booking.selectedSlot st) = true.
Proof.
  unfold BookingUi.handleSubmit, BookingUi.validateForm, BookingUi.noTime.
  destruct (BookingUi.formSchema isEmail (Booking.formData st));
    [|cbn; congruence].
  destruct (JsRecord.truthy (Booking.selectedDate st)),
    (JsRecord.truthy (Booking.selectedSlot st)); cbn; auto; congruence.
Qed.

Lemma act_sound (isEmail : string -> bool) (a : BookingUi.Action)
  (st : Booking.State) :
  BookingUi.selectionSound st ->
  BookingUi.selectionSound (BookingUi.act isEmail a st)
  /\ Booking.availableSlots (BookingUi.act isEmail a st)
     = Booking.availableSlots st.
Proof.
  intros Hst. destruct a as [i|j|f v|]; cbn [BookingUi.act].
  - destruct (nth_error (Booking.availableSlots st) i) as [daySlot|] eqn:Hday;
      [|auto].
    unfold Booking.dayDisabled.
    destruct (Booking.hasAvailable daySlot) eqn:Hav; cbn [negb]; [|auto].
    split; [|reflexivity]. split.
    + cbn. intros d Hd. injection Hd as <-. exists daySlot.
      split; [apply (nth_error_In _ _ Hday)|auto].
    + cbn. discriminate.
  - destruct (JsRecord.truthy (Booking.selectedDate st)); [|auto].
    destruct (Booking.selectedDate st) as [d|] eqn:Hd; [|auto].
    destruct (BookingUi.dayOf d (Booking.availableSlots st)) as [daySlot|] eqn:Hfind;
      [|auto].
    destruct (nth_error (Booking.slots daySlot) j) as [slot|] eqn:Hslot; [|auto].
    destruct (Booking.available slot) eqn:Hav; [|auto].
    split; [|reflexivity]. destruct Hst as [Hdate _]. split.
    + cbn. exact Hdate.
    + cbn. intros k Hk. injection Hk as <-. exists d, daySlot, slot.
      repeat split; auto. apply (nth_error_In _ _ Hslot).
  - split; [|reflexivity]. exact Hst.
  - destruct (handleSubmit_keeps isEmail st) as (Hd & Hs & Ha).
    split; [|exact Ha]. unfold BookingUi.selectionSound.
    rewrite Hd, Hs, Ha. exact Hst.
Qed.

Lemma run_sound (isEmail : string -> bool) (actions : list BookingUi.Action)
  (st : Booking.State) :
  BookingUi.selectionSound st ->
  BookingUi.selectionSound (BookingUi.run isEmail actions st)
  /\ Booking.availableSlots (BookingUi.run isEmail actions st)
     = Booking.availableSlots st.
Proof.
  revert st. induction actions as [|a actions IH]; intros st Hst; [auto|].
  cbn [BookingUi.run fold_left].
  destruct (act_sound isEmail a st Hst) as [Hst1 Hav1].
  destruct (IH (BookingUi.act isEmail a st) Hst1) as [Hrun Hav].
  split; [exact Hrun|]. unfold BookingUi.run in Hav. now rewrite Hav.
Qed.

(** X15. Whatever the user clicks, types or submits on the loaded page,
    the selected date is the date of a day with something available, and a
    selected slot is an available slot of the first day with that date; a
    slot is never selected without a date.  So a submission that goes
    through always books an available slot of the loaded days. *)
Theorem booking_selection_sound
  (isEmail : string -> bool) (days : list Booking.DaySlots)
  (actions : list BookingUi.Action) :
  let st := BookingUi.run isEmail actions (BookingUi.loaded days) in
  BookingUi.selectionSound st
  /\ Booking.availableSlots st = days
  /\ Booking.selection st <> None
  /\ (BookingUi.navigatesTo (BookingUi.handleSubmit isEmail st) <> None ->
      exists d k daySlot slot,
        Booking.selectedDate st = Some d /\ Booking.selectedSlot st = Some k
        /\ BookingUi.dayOf d days = Some daySlot
        /\ In slot (Booking.slots daySlot)
        /\ Booking.available slot = true
        /\ Booking.slotKey slot = k).
Proof.
  cbv zeta.
  assert (Hstart : BookingUi.selectionSound (BookingUi.loaded days)).
  { split; cbn; discriminate. }
  destruct (run_sound isEmail actions (BookingUi.loaded days) Hstart)
    as [Hsound Hdays].
  cbn [BookingUi.loaded Booking.availableSlots] in Hdays.
  split; [exact Hsound|]. split; [exact Hdays|]. split.
  - unfold Booking.selection. destruct Hsound as [_ Hslot].
    destruct (Booking.selectedDate
                (BookingUi.run isEmail actions (BookingUi.loaded days)))
      as [d|] eqn:Hd;
      destruct (Booking.selectedSlot
                  (BookingUi.run isEmail actions (BookingUi.loaded days)))
        as [k|] eqn:Hk; try discriminate.
    destruct (Hslot k eq_refl) as (d & _ & _ & Hbad & _). discriminate Hbad.
  - intros Hnav. apply handleSubmit_needs_slot in Hnav. destruct Hnav as [_ Hk].
    destruct Hsound as [_ Hslot].
    destruct (Booking.selectedSlot
                (BookingUi.run isEmail actions (BookingUi.loaded days)))
      as [k|] eqn:Hsel; [|discriminate Hk].
    destruct (Hslot k eq_refl) as (d & daySlot & slot & Hd & Hfind & Hin & Hav & Hkey).
    rewrite Hdays in Hfind. exists d, k, daySlot, slot. auto 10.
Qed.

Lemma booking_selection_sound_witness :
  Booking.selectedSlot
    (BookingUi.run MoreExamples.hasAt MoreExamples.booking
       (BookingUi.loaded MoreExamples.calendar))
  = Some "14:00-18:00"
  /\ exists d k daySlot slot,
       Booking.selectedDate
         (BookingUi.run MoreExamples.hasAt MoreExamples.booking
            (BookingUi.loaded MoreExamples.calendar)) = Some d
       /\ Booking.selectedSlot
            (BookingUi.run MoreExamples.hasAt MoreExamples.booking
               (BookingUi.loaded MoreExamples.calendar)) = Some k
       /\ BookingUi.dayOf d MoreExamples.calendar = Some daySlot
       /\ In slot (Booking.slots daySlot)
       /\ Booking.available slot = true
       /\ Booking.slotKey slot = k.
Proof.
  split; [reflexivity|].
  destruct (booking_selection_sound MoreExamples.hasAt MoreExamples.calendar
              MoreExamples.booking) as (_ & _ & _ & Hbooked).
  apply Hbooked. vm_compute. discriminate.
Defined.

(** ** Loading the slots *)

Lemma errorMessage_not_page_message (e : Api.thrown) :
  Api.errorMessage e <> "获取可预约时段失败".
Proof.
  destruct e as [[| |] name message|]; cbn [Api.errorMessage].
  - destruct (Js.includes "Failed to fetch" message); cbn; discriminate.
  - destruct (String.eqb name "AbortError"); cbn; discriminate.
  - cbn. discriminate.
  - discriminate.
Qed.

(** X16. The loading effect of the booking page never takes its own error
    branch, because the call it makes resolves even when the request fails:
    its message is never shown, the toasts are those of [fetchAPI], and
    loading ends.  After a failed request the stored value reads, at the
    type the page declares, as one day (the date part of the ISO time) with
    the slots 09:00-12:00 and 14:00-18:00, which is selectable; after a
    successful one it is the parsed body and no toast is shown. *)
Theorem fetchSlots_never_own_error (env : Api.Env) (iso : string) :
  let r := BookingUi.fetchSlots env iso in
  BookingUi.shown r = Api.toasts (Api.getAvailableTimeslots env)
  /\ ~ In "获取可预约时段失败" (BookingUi.shown r)
  /\ BookingUi.stillLoading r = false
  /\ (forall e, Api.tryBlock (Api.network env) = inl e ->
        BookingUi.shown r = [Api.errorMessage e]
        /\ exists day,
             BookingUi.asDays (BookingUi.stored r) = Some [day]
             /\ day = Booking.mkDaySlots (Js.split_head "T" (Api.isoNow env))
                        [ Booking.mkSlot "09:00" "12:00" true;
                          Booking.mkSlot "14:00" "18:00" true ]
             /\ Booking.hasAvailable day = true)
  /\ (forall v, Api.tryBlock (Api.network env) = inr v ->
        BookingUi.stored r = v /\ BookingUi.shown r = []).
Proof.
  cbv zeta. unfold BookingUi.fetchSlots, Api.getAvailableTimeslots, Api.fetchAPI.
  destruct (Api.tryBlock (Api.network env)) as [e|v]; cbn.
  - split; [reflexivity|]. split.
    + intros [H|[]]. now apply (errorMessage_not_page_message e).
    + split; [reflexivity|]. split.
      * intros e' He'. injection He' as <-. split; [reflexivity|].
        eexists. split; [reflexivity|]. split; reflexivity.
      * discriminate.
  - split; [reflexivity|]. split; [tauto|]. split; [reflexivity|]. split.
    + discriminate.
    + intros v' Hv'. injection Hv' as <-. auto.
Qed.

Lemma fetchSlots_never_own_error_witness :
  BookingUi.shown (BookingUi.fetchSlots Examples.timedOut "2025-05-20T10:11:12.000Z")
  = ["API请求错误: signal timed out"].
Proof.
  destruct (fetchSlots_never_own_error Examples.timedOut "2025-05-20T10:11:12.000Z")
    as (_ & _ & _ & Hfail & _).
  destruct (Hfail (Api.Err Api.DOMException "TimeoutError" "signal timed out")
                  eq_refl) as [Hshown _].
  exact Hshown.
Defined.

(* ================================================================== *)
(** * Further properties of the fetch wrapper *)

(** X17. The timeout message is shown exactly for a [DOMException] named
    [AbortError].  The [TimeoutError] with which [AbortSignal.timeout]
    aborts a request gets the generic message instead. *)
Theorem timeout_message_only_for_abort (error : Api.thrown) :
  (Api.errorMessage error = ApiCalls.timeoutMessage
   <-> exists message, error = Api.Err Api.DOMException "AbortError" message)
  /\ (forall message,
        Api.errorMessage (Api.Err Api.DOMException "TimeoutError" message)
        = "API请求错误: " ++ message).
Proof.
  split; [|reflexivity]. split.
  - destruct error as [[| |] name message|]; cbn [Api.errorMessage].
    + destruct (Js.includes "Failed to fetch" message); cbn; discriminate.
    + destruct (String.eqb_spec name "AbortError") as [->|Hne].
      * intros _. now exists message.
      * cbn. discriminate.
    + cbn. discriminate.
    + discriminate.
  - intros (message & ->). reflexivity.
Qed.

(** X18. Only the availability call hides a failure.  Each of the nine
    other exported calls, whatever the id given to the two that take one,
    rejects with the very error the request failed with, after showing it
    as one toast; and each sends its request under [/api] with cookies and
    the 8 second timeout. *)
Theorem other_calls_reject (c : ApiCalls.Call) (env : Api.Env) (e : Api.thrown) :
  Api.tryBlock (Api.network env) = inl e ->
  Api.settled (ApiCalls.perform c env) = inl e
  /\ Api.toasts (ApiCalls.perform c env) = [Api.errorMessage e]
  /\ Api.timeoutMs (Api.sent (ApiCalls.perform c env)) = 8000
  /\ Api.credentials (Api.sent (ApiCalls.perform c env)) = "include"
  /\ Js.startsWith "/api/" (Api.url (Api.sent (ApiCalls.perform c env))) = true.
Proof.
  intros He.
  destruct c; cbn [ApiCalls.perform];
    unfold ApiCalls.getUserAppointments, ApiCalls.getAllAppointments,
      ApiCalls.getNotificationRules, ApiCalls.getNotificationHistory,
      ApiCalls.getSystemConfig, ApiCalls.getRegularTimeslots,
      ApiCalls.getSpecialTimeslots, ApiCalls.updateTimeslot,
      ApiCalls.deleteTimeslot;
    rewrite (fetchAPI_failure _ _ env e He); cbn; auto.
Qed.

Lemma other_calls_reject_witness :
  Api.settled (ApiCalls.perform (ApiCalls.DeleteTimeslot EmptyString) Examples.timedOut)
  = inl (Api.Err Api.DOMException "TimeoutError" "signal timed out").
Proof.
  destruct (other_calls_reject (ApiCalls.DeleteTimeslot EmptyString)
              Examples.timedOut
              (Api.Err Api.DOMException "TimeoutError" "signal timed out")
              eq_refl) as (Hrej & _).
  exact Hrej.
Defined.

Lemma get_spread_absent (k : string) (a b : Js.record) :
  (forall v, ~ In (k, v) b) ->
  JsRecord.get k (Js.spread a b) = JsRecord.get k a.
Proof.
  unfold Js.spread. revert a. induction b as [|[k1 v1] b IH]; intros a Hno;
    [reflexivity|].
  cbn [fold_left fst snd]. rewrite IH.
  - rewrite get_assign. destruct (String.eqb_spec k1 k) as [->|Hne]; [|reflexivity].
    exfalso. apply (Hno v1). left. reflexivity.
  - intros v Hin. apply (Hno v). right. exact Hin.
Qed.

Lemma get_spread_present (k v : string) (a b : Js.record) :
  NoDup (map fst b) -> In (k, v) b ->
  JsRecord.get k (Js.spread a b) = Some v.
Proof.
  revert a. induction b as [|[k1 v1] b IH]; intros a Hnd Hin; [destruct Hin|].
  cbn [map fst] in Hnd. inversion Hnd as [|? ? Hfresh Hnd']. subst.
  destruct Hin as [Heq|Hin].
  - injection Heq as -> ->.
    change (Js.spread a ((k, v) :: b)) with (Js.spread (Js.assign k v a) b).
    rewrite get_spread_absent.
    + now rewrite get_assign, String.eqb_refl.
    + intros v' Hin. apply Hfresh. apply (in_map fst) in Hin. exact Hin.
  - change (Js.spread a ((k1, v1) :: b)) with (Js.spread (Js.assign k1 v1 a) b).
    now apply IH.
Qed.

(** X19. The headers of a request are the caller's headers laid over the
    default: every header the caller gives is sent with the caller's value,
    [Content-Type] included, and [Content-Type] is [application/json] when
    the caller gives none.  Method and body are the caller's, and the URL is
    the endpoint under [/api]. *)
Theorem request_headers (endpoint : string) (o : Api.RequestInit) (h : Js.record) :
  Api.headers o = Some h -> NoDup (map fst h) ->
  let req := Api.request endpoint (Some o) in
  (forall k v, In (k, v) h -> JsRecord.get k (Api.reqHeaders req) = Some v)
  /\ ((forall v, ~ In ("Content-Type", v) h) ->
      JsRecord.get "Content-Type" (Api.reqHeaders req) = Some "application/json")
  /\ Api.reqMethod req = Api.method o
  /\ Api.reqBody req = Api.body o
  /\ Api.url req = "/api" ++ endpoint
  /\ Api.reqHeaders (Api.request endpoint None)
     = [("Content-Type", "application/json")].
Proof.
  intros Hh Hnd. cbv zeta. unfold Api.request.
  cbn [Api.reqHeaders Api.reqMethod Api.reqBody Api.url]. rewrite Hh.
  split; [|split; [|auto]].
  - intros k v Hin. now apply get_spread_present.
  - intros Hno. now rewrite get_spread_absent.
Qed.

Lemma request_headers_witness :
  JsRecord.get "Content-Type"
    (Api.reqHeaders
       (Api.request "/upload"
          (Some (Api.mkRequestInit (Some "POST")
                   (Some [("Content-Type", "text/plain"); ("X-Trace", "1")])
                   None))))
  = Some "text/plain".
Proof.
  destruct (request_headers "/upload"
              (Api.mkRequestInit (Some "POST")
                 (Some [("Content-Type", "text/plain"); ("X-Trace", "1")]) None)
              [("Content-Type", "text/plain"); ("X-Trace", "1")] eq_refl)
    as (Hgiven & _).
  - repeat constructor; cbn; intuition discriminate.
  - apply Hgiven. left. reflexivity.
Defined.

(** X20. For an answer of JSON type whose status is not ok, the error is
    always the status line: the toast reads the status code and text
    whatever the body holds, a message sent by the server included, and for
    every endpoint but ['/timeslots'] the call rejects with that error. *)
Theorem status_error_hides_body
  (endpoint : string) (options : option Api.RequestInit) (env : Api.Env)
  (resp : Api.Response) :
  Api.network env = inr resp ->
  Api.notJson resp = false -> Api.ok resp = false ->
  Api.toasts (Api.fetchAPI endpoint options env)
  = ["API请求错误: 请求失败: " ++ Js.toString (Api.status resp) ++ " "
       ++ Api.statusText resp]
  /\ (endpoint <> "/timeslots" ->
      Api.settled (Api.fetchAPI endpoint options env) = inl (Api.statusError resp)).
Proof.
  intros Hnet Hjson Hok.
  assert (Htry : Api.tryBlock (Api.network env) = inl (Api.statusError resp)).
  { unfold Api.tryBlock. rewrite Hnet, Hjson, Hok. cbn [negb].
    destruct (Api.json resp); reflexivity. }
  rewrite (fetchAPI_failure endpoint options env _ Htry).
  cbn [Api.toasts Api.settled]. split; [reflexivity|].
  intros Hne. apply String.eqb_neq in Hne. now rewrite Hne.
Qed.

Lemma status_error_hides_body_witness :
  Api.toasts
    (Api.fetchAPI "/settings" None
       (Api.mkEnv (inr MoreExamples.serverError) "2025-05-20T10:11:12.000Z"))
  = ["API请求错误: 请求失败: 500 Internal Server Error"].
Proof.
  destruct (status_error_hides_body "/settings" None
              (Api.mkEnv (inr MoreExamples.serverError) "2025-05-20T10:11:12.000Z")
              MoreExamples.serverError eq_refl eq_refl eq_refl)
    as (Htoast & _).
  exact Htoast.
Defined.
